(** * find-your-keeb UI: the screens' handlers and stock rendering

    A shallow embedding of the four screens of the storefront
    (Home, ProductDetail, AdminOrders, AdminProductForm): their event
    handlers as programs of a small state-and-exception monad, the parts of
    their render functions that depend on the stock quantity as trees of
    nodes, and the JavaScript built-ins they call ([parseInt], [parseFloat],
    [isNaN], [Intl.NumberFormat]) as functions on strings. *)

From Stdlib Require Import ZArith NArith List String Ascii Bool Lia DecimalString.
Import ListNotations.

Local Open Scope string_scope.
Local Open Scope Z_scope.

(* ================================================================== *)
(** ** JavaScript built-ins *)
(* ================================================================== *)

Module JS.

(** A Number. [Dec neg m e] is the Number value of the real
    [(-1)^neg * m * 10^e] (round to nearest, ties to even); the sign is kept
    apart so that [-0] is [Dec true 0 0]. Every finite binary64 value is
    such a decimal, so nothing is lost. *)
Inductive Number :=
| NaN
| Infinity (neg : bool)
| Dec (neg : bool) (m : N) (e : Z).

Definition isNaN (x : Number) : bool :=
  match x with NaN => true | _ => false end.

(** [m * 10^e] converts to (plus or minus) zero: it is zero, or it is at
    most half the least subnormal [2^-1074] (the tie goes to the even
    neighbour, zero). *)
Definition rounds_to_zero (m : N) (e : Z) : bool :=
  if 0 <=? e then (m =? 0)%N
  else (Z.of_N m * 2 ^ 1075 <=? 10 ^ (- e)).

(** [x < 0], [x <= 0], [x > 0], [x >= 0]; every comparison with NaN is
    false, and [-0] compares equal to [0]. *)
Definition ltZero (x : Number) : bool :=
  match x with
  | NaN => false
  | Infinity neg => neg
  | Dec neg m e => neg && negb (rounds_to_zero m e)
  end.

Definition leZero (x : Number) : bool :=
  match x with
  | NaN => false
  | Infinity neg => neg
  | Dec neg m e => neg || rounds_to_zero m e
  end.

Definition gtZero (x : Number) : bool :=
  match x with
  | NaN => false
  | Infinity neg => negb neg
  | Dec neg m e => negb neg && negb (rounds_to_zero m e)
  end.

Definition geZero (x : Number) : bool :=
  match x with
  | NaN => false
  | Infinity neg => negb neg
  | Dec neg m e => negb neg || rounds_to_zero m e
  end.

(** *** Characters *)

Definition code (c : ascii) : N := N_of_ascii c.

Definition is_digit (c : ascii) : bool :=
  ((48 <=? code c) && (code c <=? 57))%N.

Definition is_hex_digit (c : ascii) : bool :=
  (is_digit c
   || ((97 <=? code c) && (code c <=? 102))
   || ((65 <=? code c) && (code c <=? 70)))%N.

Definition digit_value (c : ascii) : N :=
  (if is_digit c then code c - 48
   else if (97 <=? code c) then code c - 87
   else code c - 55)%N.

Definition is_radix_digit (radix : N) (c : ascii) : bool :=
  if (radix =? 16)%N then is_hex_digit c else is_digit c.

(** The longest prefix whose characters satisfy [p], and what follows. *)
Fixpoint span (p : ascii -> bool) (s : string) : string * string :=
  match s with
  | EmptyString => (EmptyString, EmptyString)
  | String c r =>
      if p c then let '(a, b) := span p r in (String c a, b)
      else (EmptyString, s)
  end.

(** The value of a string of digits in the given radix. *)
Fixpoint digits_value_from (radix : N) (acc : N) (s : string) : N :=
  match s with
  | EmptyString => acc
  | String c r => digits_value_from radix (acc * radix + digit_value c)%N r
  end.

Definition digits_value (radix : N) (s : string) : N :=
  digits_value_from radix 0%N s.

Definition is_empty (s : string) : bool :=
  match s with EmptyString => true | _ => false end.

(** *** TrimString(start)

    Strings hold UTF-8 text. White space and line terminators
    (StrWhiteSpaceChar) are TAB, LF, VT, FF, CR, SP, and, in their UTF-8
    encodings, U+00A0, U+1680, U+2000..U+200A, U+2028, U+2029, U+202F,
    U+205F, U+3000 and U+FEFF. *)
Definition ws1 (a : N) : bool :=
  ((9 <=? a) && (a <=? 13) || (a =? 32))%N.

Definition ws2 (a b : N) : bool :=
  ((a =? 194) && (b =? 160))%N.

Definition ws3 (a b c : N) : bool :=
  ((a =? 225) && (b =? 154) && (c =? 128)
   || (a =? 226) && (b =? 128)
      && ((128 <=? c) && (c <=? 138) || (c =? 168) || (c =? 169) || (c =? 175))
   || (a =? 226) && (b =? 129) && (c =? 159)
   || (a =? 227) && (b =? 128) && (c =? 128)
   || (a =? 239) && (b =? 187) && (c =? 191))%N.

Fixpoint trimStart (s : string) : string :=
  match s with
  | EmptyString => EmptyString
  | String a r1 =>
      if ws1 (code a) then trimStart r1
      else
        match r1 with
        | EmptyString => s
        | String b r2 =>
            if ws2 (code a) (code b) then trimStart r2
            else
              match r2 with
              | EmptyString => s
              | String c r3 =>
                  if ws3 (code a) (code b) (code c) then trimStart r3 else s
              end
        end
  end.

(** A leading ["-"] or ["+"], removed. *)
Definition take_sign (s : string) : bool * string :=
  match s with
  | String c r =>
      if (code c =? 45)%N then (true, r)         (* "-" *)
      else if (code c =? 43)%N then (false, r)   (* "+" *)
      else (false, s)
  | EmptyString => (false, s)
  end.

(** *** parseInt(string), no radix argument

    Trim, take the sign, strip ["0x"]/["0X"] (radix 16, else 10), keep the
    longest prefix of digits of the radix; NaN when that prefix is empty. *)
Definition strip_hex_prefix (s : string) : N * string :=
  match s with
  | String c (String d r) =>
      if ((code c =? 48) && ((code d =? 120) || (code d =? 88)))%N
      then (16%N, r)                             (* "0x", "0X" *)
      else (10%N, s)
  | _ => (10%N, s)
  end.

Definition parseInt (s : string) : Number :=
  let '(neg, s1) := take_sign (trimStart s) in
  let '(radix, s2) := strip_hex_prefix s1 in
  let '(z, _) := span (is_radix_digit radix) s2 in
  if is_empty z then NaN else Dec neg (digits_value radix z) 0.

(** *** parseFloat(string)

    Trim, then the longest prefix that is a StrDecimalLiteral: a sign,
    then ["Infinity"], or digits with an optional fraction (at least one
    digit on one side of the point) and an optional exponent part, which
    counts only if it has a digit. *)
Fixpoint starts_with (p s : string) : bool :=
  match p, s with
  | EmptyString, _ => true
  | String a p', String b s' => (code a =? code b)%N && starts_with p' s'
  | String _ _, EmptyString => false
  end.

Definition exponent_part (s : string) : Z :=
  match s with
  | String c r =>
      if ((code c =? 101) || (code c =? 69))%N then
        let '(eneg, r1) := take_sign r in
        let '(ed, _) := span is_digit r1 in
        if is_empty ed then 0
        else if eneg then - Z.of_N (digits_value 10 ed)
        else Z.of_N (digits_value 10 ed)
      else 0
  | EmptyString => 0
  end.

Definition parseFloat (s : string) : Number :=
  let '(neg, s1) := take_sign (trimStart s) in
  if starts_with "Infinity" s1 then Infinity neg
  else
    let '(ip, r1) := span is_digit s1 in
    let '(fp, r2) :=
      match r1 with
      | String c r =>
          if (code c =? 46)%N then span is_digit r   (* "." *)
          else (EmptyString, r1)
      | EmptyString => (EmptyString, r1)
      end in
    if is_empty ip && is_empty fp then NaN
    else Dec neg (digits_value 10 (ip ++ fp))
                 (exponent_part r2 - Z.of_nat (String.length fp)).

(** *** Number to string, for integers (template literals)

    Plain decimal digits, with a minus sign below zero; this is what
    JavaScript prints for integers of magnitude below [10^21]. *)
Definition toString (z : Z) : string :=
  NilZero.string_of_int (Z.to_int z).

(** *** Intl.NumberFormat('en-US', {style: 'currency', currency: 'USD'})

    Two fraction digits, rounding half away from zero, groups of three
    separated by commas, the sign before the dollar sign (also for a
    negative zero and for a negative amount that rounds to zero). The
    argument is taken at its exact decimal value. *)
Definition cents (m : N) (e : Z) : N :=
  if 0 <=? e + 2 then (m * Z.to_N (10 ^ (e + 2)))%N
  else
    let k := Z.to_N (10 ^ (- (e + 2))) in
    ((2 * m + k) / (2 * k))%N.

(** Commas every three digits, counted from the right; [rev_digits] is the
    digit list reversed and [n] how many digits the current group holds. *)
Fixpoint group_rev (rev_digits : list ascii) (n : nat) (acc : list ascii)
  : list ascii :=
  match rev_digits with
  | [] => acc
  | d :: r =>
      match n with
      | 3%nat => group_rev r 1 (d :: ","%char :: acc)
      | _ => group_rev r (S n) (d :: acc)
      end
  end.

Definition grouped (n : N) : string :=
  let ds := list_ascii_of_string (NilEmpty.string_of_uint (N.to_uint n)) in
  string_of_list_ascii (group_rev (rev ds) 0 []).

Definition two_digits (n : N) : string :=
  let s := NilEmpty.string_of_uint (N.to_uint n) in
  if (n <? 10)%N then "0" ++ s else s.

Definition formatCurrencyUSD (x : Number) : string :=
  match x with
  | NaN => "$NaN"
  | Infinity neg => (if neg then "-" else "") ++ "$∞"
  | Dec neg m e =>
      let c := cents m e in
      (if neg then "-" else "") ++ "$" ++ grouped (c / 100)
        ++ "." ++ two_digits (c mod 100)
  end.

(** *** Truthiness of a [string | null] state, as in [error && ..] and
    [error || ..]: null and the empty string are falsy. *)
Definition truthy (x : option string) : bool :=
  match x with
  | Some s => negb (is_empty s)
  | None => false
  end.

(** *** s.replace(pattern, replacement) for one-character strings: the
    first occurrence only. *)
Fixpoint replace (pattern replacement : ascii) (s : string) : string :=
  match s with
  | EmptyString => EmptyString
  | String c r =>
      if (code c =? code pattern)%N then String replacement r
      else String c (replace pattern replacement r)
  end.

(** *** s.substring(0, n) for [n >= 0], on text within ASCII, where a
    character of the string is one code unit. *)
Definition substring0 (n : nat) (s : string) : string :=
  String.substring 0 n s.

(** *** Finite Numbers and safe integers

    [m * 10^e] converts to an infinity when it reaches the midpoint
    [2^1024 - 2^970] between the largest finite Number and [2^1024] (the
    tie goes to the even neighbour, the infinity). *)
Definition overflows (m : N) (e : Z) : bool :=
  if 0 <=? e then (2 ^ 1024 - 2 ^ 970 <=? Z.of_N m * 10 ^ e)
  else ((2 ^ 1024 - 2 ^ 970) * 10 ^ (- e) <=? Z.of_N m).

(** [Number.isFinite(x)] *)
Definition isFinite (x : Number) : bool :=
  match x with
  | NaN => false
  | Infinity _ => false
  | Dec _ m e => negb (overflows m e)
  end.

(** The integer a Number is, for a decimal without fraction digits of
    magnitude below [2^53]: each of these integers is a Number of its own,
    so the conversion is exact ([Number.isSafeInteger]). *)
Definition safeInteger (x : Number) : option Z :=
  match x with
  | Dec neg m e =>
      if (0 <=? e) && (Z.of_N m * 10 ^ e <? 2 ^ 53)
      then Some (if neg then - (Z.of_N m * 10 ^ e) else Z.of_N m * 10 ^ e)
      else None
  | _ => None
  end.

End JS.

(* ================================================================== *)
(** ** Data model *)
(* ================================================================== *)

(** Modelled from the spec: the type declarations of [../types] (Product,
    Order, OrderItem, OrderStatus, the add-to-cart request), which are not
    among the sources; the fields are those of the data model of the
    specification and those the screens read. Ids and quantities are
    integers; a layout is the string value of its enumeration member. *)
Module Product.
Record t := mk {
  id : Z;
  name : string;
  description : string;
  price : JS.Number;
  brand : string;
  layout : string;
  switchType : string;
  keycapMaterial : string;
  caseMaterial : string;
  rgbSupport : bool;
  wirelessSupport : bool;
  stockQuantity : Z;
  imageUrl : string
}.
End Product.

Inductive OrderStatus := PENDING | CONFIRMED | SHIPPED | DELIVERED | CANCELLED.

Module OrderItem.
Record t := mk { product : Product.t; quantity : Z }.
End OrderItem.

Module Order.
Record t := mk {
  id : Z;
  userId : Z;
  items : list OrderItem.t;
  totalAmount : JS.Number;
  status : OrderStatus;
  createdAt : string
}.
End Order.

Module AddToCartRequest.
Record t := mk { productId : Z; quantity : Z }.
End AddToCartRequest.

(** What [useAuth()] gives a screen. *)
Module Session.
Record User := mkUser { id : Z; role : string }.
Record t := mk { isAuthenticated : bool; user : option User }.
End Session.

(** The form state of AdminProductForm ([useState] initial value included):
    every text input is a string. *)
Module FormData.
Record t := mk {
  name : string;
  description : string;
  price : string;
  brand : string;
  layout : string;
  switchType : string;
  keycapMaterial : string;
  caseMaterial : string;
  rgbSupport : bool;
  wirelessSupport : bool;
  stockQuantity : string;
  imageUrl : string
}.

Definition initial : t :=
  mk "" "" "" "" "FULL_SIZE" "" "" "" false false "" "".
End FormData.

(** [{...formData, price: parseFloat(..), stockQuantity: parseInt(..)}] *)
Module ProductData.
Record t := mk {
  name : string;
  description : string;
  price : JS.Number;
  brand : string;
  layout : string;
  switchType : string;
  keycapMaterial : string;
  caseMaterial : string;
  rgbSupport : bool;
  wirelessSupport : bool;
  stockQuantity : JS.Number;
  imageUrl : string
}.
End ProductData.

(* ================================================================== *)
(** ** Effects: asynchronous handlers *)
(* ================================================================== *)

(** A thrown value (a rejected promise's reason). *)
Definition Error := string.

Inductive Outcome (A : Type) :=
| Resolved (a : A)
| Rejected (e : Error).
Arguments Resolved {A} a.
Arguments Rejected {A} e.

(** Calls that leave the screen: to the API client and to the cart holder. *)
Inductive Call :=
| call_addToCart (item : AddToCartRequest.t)
| call_getAllOrders
| call_updateOrderStatus (id : Z) (status : OrderStatus)
| call_createProduct (data : ProductData.t).

(** What a handler does besides setting state, in order. *)
Inductive Event :=
| calls (c : Call)
| navigate (to : string)
| console_error (msg : string) (err : Error)
| preventDefault
| setTimeout_navigate (to : string) (ms : Z).

Definition is_call (e : Event) : bool :=
  match e with calls _ => true | _ => false end.

(** The calls of a trace, in order. *)
Definition calls_of (tr : list Event) : list Event := filter is_call tr.

(** The world a handler runs in: the component's state [V] (what the
    setters write), the state [R] of the service behind the calls, and the
    trace of effects so far. *)
Record World (V R : Type) := mkWorld {
  view : V;
  remote : R;
  trace : list Event
}.
Arguments mkWorld {V R}.
Arguments view {V R}.
Arguments remote {V R}.
Arguments trace {V R}.

Definition Async (V R A : Type) := World V R -> Outcome A * World V R.

Section AsyncOps.
Context {V R : Type}.

Definition ret {A} (a : A) : Async V R A := fun w => (Resolved a, w).

Definition bind {A B} (c : Async V R A) (k : A -> Async V R B)
  : Async V R B :=
  fun w =>
    match c w with
    | (Resolved a, w1) => k a w1
    | (Rejected e, w1) => (Rejected e, w1)
    end.

(** A [useState] setter. *)
Definition setState (f : V -> V) : Async V R unit :=
  fun w => (Resolved tt, mkWorld (f (view w)) (remote w) (trace w)).

Definition emit (e : Event) : Async V R unit :=
  fun w => (Resolved tt, mkWorld (view w) (remote w) (trace w ++ [e])).

(** [await service.method(args)]: the call is recorded, the service
    answers and moves to its next state. *)
Definition await {A} (c : Call) (answer : R -> Outcome A * R)
  : Async V R A :=
  fun w =>
    let '(out, r1) := answer (remote w) in
    (out, mkWorld (view w) r1 (trace w ++ [calls c])).

(** [try { body } catch (err) { handler }] *)
Definition try_catch {A} (body : Async V R A) (handler : Error -> Async V R A)
  : Async V R A :=
  fun w =>
    match body w with
    | (Resolved a, w1) => (Resolved a, w1)
    | (Rejected e, w1) => handler e w1
    end.

(** [try { body } finally { final }]: [final] runs on both ways out and
    its own failure, if any, replaces the outcome. *)
Definition try_finally {A} (body : Async V R A) (final : Async V R unit)
  : Async V R A :=
  fun w =>
    let '(out, w1) := body w in
    match final w1 with
    | (Resolved _, w2) => (out, w2)
    | (Rejected e, w2) => (Rejected e, w2)
    end.
End AsyncOps.

Notation "x <- c ;; k" := (bind c (fun x => k))
  (at level 61, c at next level, right associativity).
Notation "c ;; k" := (bind c (fun _ => k))
  (at level 61, right associativity).

(** A handler closes over the state of the render it was created in: a
    click runs it on the state currently shown. *)
Definition click {V R A} (handler : V -> Async V R A) : Async V R A :=
  fun w => handler (view w) w.

(** [await apiService.method(args)] for the calls that load a screen's
    data: the service answers and moves to its next state. *)
Definition request {V R A} (answer : R -> Outcome A * R) : Async V R A :=
  fun w =>
    let '(out, r1) := answer (remote w) in
    (out, mkWorld (view w) r1 (trace w)).

(* ================================================================== *)
(** ** Rendered nodes *)
(* ================================================================== *)

#[warnings="-register-all"]
Inductive Node :=
| Chip (label color : string)
| Alert (severity text : string)
| Button (label : string) (disabled : bool)
| Typography (color text : string)
| Box (children : list Node).

(** Some node of the tree satisfies [f]. *)
Fixpoint any_node (f : Node -> bool) (n : Node) : bool :=
  f n || match n with
         | Box cs => existsb (any_node f) cs
         | _ => false
         end.

(** [{cond && <X/>}] *)
Definition when (cond : bool) (n : Node) : list Node :=
  if cond then [n] else [].

(** A low-stock warning is an alert of severity warning. *)
Definition lowStockWarning (n : Node) : bool :=
  match n with
  | Alert severity _ => String.eqb severity "warning"
  | _ => false
  end.

(** An out-of-stock warning is an alert or a chip in the error colour. *)
Definition outOfStockWarning (n : Node) : bool :=
  match n with
  | Alert severity _ => String.eqb severity "error"
  | Chip _ color => String.eqb color "error"
  | _ => false
  end.

(* ================================================================== *)
(** ** Home (src/pages/Home.tsx) *)
(* ================================================================== *)

Module Home.

Record View := mkView {
  featuredProducts : list Product.t;
  loading : bool;
  error : option string
}.

Section Screen.
(** The cart holder behind [useCart()]: its state and its [addToCart]. *)
Context {Cart : Type}.
Variable addToCart : AddToCartRequest.t -> Cart -> Outcome unit * Cart.
Variable session : Session.t.

(** [user?.role === 'ADMIN'] *)
Definition isAdmin : bool :=
  match Session.user session with
  | Some u => String.eqb (Session.role u) "ADMIN"
  | None => false
  end.

Definition handleAddToCart (productId : Z) : Async View Cart unit :=
  if negb (Session.isAuthenticated session) then
    emit (navigate "/login")
  else
    try_catch
      (await (call_addToCart (AddToCartRequest.mk productId 1))
             (addToCart (AddToCartRequest.mk productId 1)))
      (fun err => emit (console_error "Error adding to cart:" err)).

Definition formatPrice (price : JS.Number) : string :=
  JS.formatCurrencyUSD price.

(** The stock chip of a card, shown to all users. *)
Definition stockStatus (product : Product.t) : Node :=
  let q := Product.stockQuantity product in
  Box [ Chip (if 0 <? q then "In Stock (" ++ JS.toString q ++ ")"
              else "Out of Stock")
             (if 0 <? q then "success" else "error") ].

(** What follows it: the admin's stock chip and manage button, or the
    add-to-cart button. *)
Definition cardAction (product : Product.t) : Node :=
  let q := Product.stockQuantity product in
  if isAdmin then
    Box [ Chip ("Stock: " ++ JS.toString q)
               (if 0 <? q then "success" else "error");
          Button "Manage Product" false ]
  else
    Button (if q =? 0 then "Out of Stock" else "Add to Cart") (q =? 0).

(** The children of a card's content that depend on the stock quantity
    (name, description, tags and price do not). *)
Definition card (product : Product.t) : Node :=
  Box [ Typography "primary" (formatPrice (Product.price product));
        stockStatus product;
        cardAction product ].
End Screen.

(** The page of products [getProducts] answers with; [content] may be
    missing. *)
Record ProductsResponse := mkResponse {
  content : option (list Product.t)
}.

Section Fetch.
Context {Server : Type}.
Variable getProducts : Z -> Server -> Outcome ProductsResponse * Server.

Definition setFeaturedProducts (x : list Product.t) : Async View Server unit :=
  setState (fun v => mkView x (loading v) (error v)).
Definition setLoading (x : bool) : Async View Server unit :=
  setState (fun v => mkView (featuredProducts v) x (error v)).
Definition setError (x : option string) : Async View Server unit :=
  setState (fun v => mkView (featuredProducts v) (loading v) x).

(** The effect run on mount; [getProducts] is given the [size]. *)
Definition fetchFeaturedProducts : Async View Server unit :=
  try_finally
    (try_catch
       (setLoading true ;;
        setError None ;;
        response <- request (getProducts 6) ;;
        setFeaturedProducts (match content response with
                             | Some products => products
                             | None => []
                             end))
       (fun err =>
          emit (console_error "Error fetching featured products:" err) ;;
          setError (Some "Failed to load featured products") ;;
          setFeaturedProducts []))
    (setLoading false).
End Fetch.

(** The text parts of a card. *)
Definition descriptionShown (product : Product.t) : string :=
  JS.substring0 100 (Product.description product) ++ "...".

Definition layoutLabel (product : Product.t) : string :=
  JS.replace "_" " " (Product.layout product).

(** The featured-products part of the page: the error banner, if any, and
    either the progress indicator or one card per product. *)
Record Rendered := mkRendered {
  banner : option string;
  progress : bool;
  cards : list Node
}.

Definition render (session : Session.t) (shown : View) : Rendered :=
  mkRendered
    (if JS.truthy (error shown) then error shown else None)
    (loading shown)
    (if loading shown then []
     else map (card session) (featuredProducts shown)).

End Home.

(* ================================================================== *)
(** ** ProductDetail *)
(* ================================================================== *)

Module ProductDetail.

Record View := mkView {
  product : option Product.t;
  loading : bool;
  error : option string;
  quantity : Z
}.

(** [useState(1)] for the quantity; nothing is loaded yet. *)
Definition initial : View := mkView None true None 1.

Definition setQuantity {R} (q : Z) : Async View R unit :=
  setState (fun v => mkView (product v) (loading v) (error v) q).

Section Screen.
Context {Cart : Type}.
Variable addToCart : AddToCartRequest.t -> Cart -> Outcome unit * Cart.
Variable session : Session.t.

Definition handleAddToCart (shown : View) : Async View Cart unit :=
  if negb (Session.isAuthenticated session) then
    emit (navigate "/login")
  else
    match product shown with
    | None => ret tt
    | Some p =>
        let item := AddToCartRequest.mk (Product.id p) (quantity shown) in
        try_catch
          (await (call_addToCart item) (addToCart item))
          (fun err => emit (console_error "Error adding to cart:" err))
    end.

Definition formatPrice (price : JS.Number) : string :=
  JS.formatCurrencyUSD price.

(** The stock status box: chip, out-of-stock alert, low-stock alert. *)
Definition stockStatus (p : Product.t) : Node :=
  let q := Product.stockQuantity p in
  Box ([ Chip (if 0 <? q
               then "In Stock (" ++ JS.toString q ++ " available)"
               else "Out of Stock")
              (if 0 <? q then "success" else "error") ]
       ++ when (q =? 0)
            (Alert "error"
               "This product is currently out of stock. Please check back later or contact us for availability updates.")
       ++ when ((0 <? q) && (q <=? 5))
            (Alert "warning"
               ("Only " ++ JS.toString q
                ++ " left in stock! Order soon to avoid disappointment."))).

(** The quantity stepper: the two buttons' [onClick] and [disabled]. *)
Definition minus_onClick (shown : View) : Async View Cart unit :=
  setQuantity (Z.max 1 (quantity shown - 1)).

Definition minus_disabled (shown : View) : bool :=
  quantity shown <=? 1.

Definition plus_onClick (shown : View) : Async View Cart unit :=
  setQuantity (quantity shown + 1).

Definition plus_disabled (p : Product.t) (shown : View) : bool :=
  Product.stockQuantity p <=? quantity shown.

Definition stepper (p : Product.t) (shown : View) : Node :=
  Box [ Button "-" (minus_disabled shown);
        Typography "" (JS.toString (quantity shown));
        Button "+" (plus_disabled p shown) ].

(** The add-to-cart button and the note under it. *)
Definition addToCartSection (p : Product.t) : Node :=
  let q := Product.stockQuantity p in
  Box ([ Button (if q =? 0 then "Out of Stock" else "Add to Cart") (q =? 0) ]
       ++ when (q =? 0)
            (Typography "error" "This product is currently out of stock")).

(** A user action on the stepper. A disabled button does not fire. *)
Inductive Action := Minus | Plus.

Definition dispatch (a : Action) : Async View Cart unit :=
  click (fun shown =>
    match product shown with
    | None => ret tt
    | Some p =>
        match a with
        | Minus => if minus_disabled shown then ret tt
                   else minus_onClick shown
        | Plus => if plus_disabled p shown then ret tt
                  else plus_onClick shown
        end
    end).

Fixpoint dispatch_all (actions : list Action) : Async View Cart unit :=
  match actions with
  | [] => ret tt
  | a :: rest => dispatch a ;; dispatch_all rest
  end.

(** The screen once product [p] has loaded, before any click. *)
Definition loaded (p : Product.t) (cart : Cart) : World View Cart :=
  mkWorld (mkView (Some p) false None 1) cart [].

(** The quantity shown after a sequence of clicks on the stepper. *)
Definition quantity_after (p : Product.t) (cart : Cart)
           (actions : list Action) : Z :=
  quantity (view (snd (dispatch_all actions (loaded p cart)))).
End Screen.

Section Fetch.
Context {Server : Type}.
Variable getProductById : JS.Number -> Server -> Outcome Product.t * Server.

Definition setProduct (x : option Product.t) : Async View Server unit :=
  setState (fun v => mkView x (loading v) (error v) (quantity v)).
Definition setLoading (x : bool) : Async View Server unit :=
  setState (fun v => mkView (product v) x (error v) (quantity v)).
Definition setError (x : option string) : Async View Server unit :=
  setState (fun v => mkView (product v) (loading v) x (quantity v)).

(** The effect run on mount and when the [id] of the path changes; [id]
    is [None] when the path has none. *)
Definition fetchProduct (id : option string) : Async View Server unit :=
  if negb (JS.truthy id) then ret tt
  else
    try_finally
      (try_catch
         (setLoading true ;;
          productData <- request (getProductById
                                    (JS.parseInt (match id with
                                                  | Some s => s
                                                  | None => ""
                                                  end))) ;;
          setProduct (Some productData) ;;
          setError None)
         (fun err =>
            setError (Some "Failed to load product") ;;
            emit (console_error "Error fetching product:" err)))
      (setLoading false).
End Fetch.

(** What the screen shows: the progress indicator, an error alert, or
    the product (its stock status, stepper and add-to-cart section). *)
Inductive Rendered :=
| progress
| failure (message : string)
| page (content : list Node).

Definition render (shown : View) : Rendered :=
  if loading shown then progress
  else
    match product shown with
    | Some p =>
        if JS.truthy (error shown)
        then failure (match error shown with Some m => m | None => "" end)
        else page [stockStatus p; stepper p shown; addToCartSection p]
    | None =>
        failure (if JS.truthy (error shown)
                 then match error shown with Some m => m | None => "" end
                 else "Product not found")
    end.

Section Page.
Context {Cart : Type}.
Variable addToCart : AddToCartRequest.t -> Cart -> Outcome unit * Cart.
Variable session : Session.t.

(** A click on the add-to-cart button of the product shown; the button
    is disabled when the stock is 0. *)
Definition addToCart_click : Async View Cart unit :=
  click (fun shown =>
    match render shown with
    | page _ =>
        match product shown with
        | Some p =>
            if Product.stockQuantity p =? 0 then ret tt
            else handleAddToCart addToCart session shown
        | None => ret tt
        end
    | _ => ret tt
    end).
End Page.

End ProductDetail.

(* ================================================================== *)
(** ** AdminOrders *)
(* ================================================================== *)

Module AdminOrders.

Record View := mkView {
  orders : list Order.t;
  loading : bool;
  error : option string;
  statusDialogOpen : bool;
  selectedOrder : option Order.t;
  newStatus : OrderStatus
}.

Definition initial : View := mkView [] true None false None PENDING.

(** The two methods of [apiService] this screen calls, over the state of
    the server behind them. *)
Record Api (Server : Type) := mkApi {
  getAllOrders : Server -> Outcome (list Order.t) * Server;
  updateOrderStatus : Z -> OrderStatus -> Server -> Outcome unit * Server
}.
Arguments getAllOrders {Server}.
Arguments updateOrderStatus {Server}.

Section Screen.
Context {Server : Type}.
Variable apiService : Api Server.

Definition setOrders (x : list Order.t) : Async View Server unit :=
  setState (fun v => mkView x (loading v) (error v) (statusDialogOpen v)
                            (selectedOrder v) (newStatus v)).
Definition setLoading (x : bool) : Async View Server unit :=
  setState (fun v => mkView (orders v) x (error v) (statusDialogOpen v)
                            (selectedOrder v) (newStatus v)).
Definition setError (x : option string) : Async View Server unit :=
  setState (fun v => mkView (orders v) (loading v) x (statusDialogOpen v)
                            (selectedOrder v) (newStatus v)).
Definition setStatusDialogOpen (x : bool) : Async View Server unit :=
  setState (fun v => mkView (orders v) (loading v) (error v) x
                            (selectedOrder v) (newStatus v)).
Definition setSelectedOrder (x : option Order.t) : Async View Server unit :=
  setState (fun v => mkView (orders v) (loading v) (error v)
                            (statusDialogOpen v) x (newStatus v)).
Definition setNewStatus (x : OrderStatus) : Async View Server unit :=
  setState (fun v => mkView (orders v) (loading v) (error v)
                            (statusDialogOpen v) (selectedOrder v) x).

Definition fetchOrders : Async View Server unit :=
  try_finally
    (try_catch
       (setLoading true ;;
        data <- await call_getAllOrders (getAllOrders apiService) ;;
        setOrders data ;;
        setError None)
       (fun err =>
          setError (Some "Failed to load orders") ;;
          emit (console_error "Error fetching orders:" err)))
    (setLoading false).

Definition handleStatusUpdate (order : Order.t) : Async View Server unit :=
  setSelectedOrder (Some order) ;;
  setNewStatus (Order.status order) ;;
  setStatusDialogOpen true.

Definition handleStatusSubmit (shown : View) : Async View Server unit :=
  match selectedOrder shown with
  | None => ret tt
  | Some order =>
      try_catch
        (await (call_updateOrderStatus (Order.id order) (newStatus shown))
               (updateOrderStatus apiService (Order.id order)
                                  (newStatus shown)) ;;
         fetchOrders ;;
         setStatusDialogOpen false ;;
         setSelectedOrder None)
        (fun err =>
           setError (Some "Failed to update order status") ;;
           emit (console_error "Error updating order status:" err))
  end.

Definition formatPrice (price : JS.Number) : string :=
  JS.formatCurrencyUSD price.


End Screen.

(** The dialog's [onClose] and its Cancel button. *)
Definition dialog_onClose {Server : Type} : Async View Server unit :=
  setStatusDialogOpen false.

(** The [onChange] of the status select. *)
Definition select_onChange {Server : Type} (status : OrderStatus)
  : Async View Server unit :=
  setNewStatus status.

End AdminOrders.

(* ================================================================== *)
(** ** AdminProductForm *)
(* ================================================================== *)

Module AdminProductForm.

Record View := mkView {
  loading : bool;
  error : option string;
  success : option string;
  keyboardLayouts : list string;
  formData : FormData.t
}.

Definition initial : View := mkView false None None [] FormData.initial.

(** [apiService.createProduct], over the state of the server behind it. *)
Record Api (Server : Type) := mkApi {
  createProduct : ProductData.t -> Server -> Outcome unit * Server
}.
Arguments createProduct {Server}.

(** [!s] for a string: true exactly for the empty string. *)
Definition not_ (s : string) : bool := JS.is_empty s.

(** The conditions of the three guards of [handleSubmit]. *)
Definition missingRequired (f : FormData.t) : bool :=
  not_ (FormData.name f) || not_ (FormData.description f)
  || not_ (FormData.price f) || not_ (FormData.brand f)
  || not_ (FormData.stockQuantity f).

Definition invalidPrice (f : FormData.t) : bool :=
  JS.isNaN (JS.parseFloat (FormData.price f))
  || JS.leZero (JS.parseFloat (FormData.price f)).

Definition invalidStockQuantity (f : FormData.t) : bool :=
  JS.isNaN (JS.parseInt (FormData.stockQuantity f))
  || JS.ltZero (JS.parseInt (FormData.stockQuantity f)).

(** [{...formData, price: parseFloat(formData.price),
      stockQuantity: parseInt(formData.stockQuantity)}] *)
Definition productData (f : FormData.t) : ProductData.t :=
  ProductData.mk
    (FormData.name f) (FormData.description f)
    (JS.parseFloat (FormData.price f))
    (FormData.brand f) (FormData.layout f) (FormData.switchType f)
    (FormData.keycapMaterial f) (FormData.caseMaterial f)
    (FormData.rgbSupport f) (FormData.wirelessSupport f)
    (JS.parseInt (FormData.stockQuantity f))
    (FormData.imageUrl f).

Section Screen.
Context {Server : Type}.
Variable apiService : Api Server.

Definition setLoading (x : bool) : Async View Server unit :=
  setState (fun v => mkView x (error v) (success v) (keyboardLayouts v)
                            (formData v)).
Definition setError (x : option string) : Async View Server unit :=
  setState (fun v => mkView (loading v) x (success v) (keyboardLayouts v)
                            (formData v)).
Definition setSuccess (x : option string) : Async View Server unit :=
  setState (fun v => mkView (loading v) (error v) x (keyboardLayouts v)
                            (formData v)).

Definition handleSubmit (shown : View) : Async View Server unit :=
  emit preventDefault ;;
  if missingRequired (formData shown) then
    setError (Some "Please fill in all required fields")
  else if invalidPrice (formData shown) then
    setError (Some "Please enter a valid price")
  else if invalidStockQuantity (formData shown) then
    setError (Some "Please enter a valid stock quantity")
  else
      try_finally
        (try_catch
           (setLoading true ;;
            setError None ;;
            await (call_createProduct (productData (formData shown)))
                  (createProduct apiService (productData (formData shown))) ;;
            setSuccess (Some "Product created successfully") ;;
            emit (setTimeout_navigate "/admin/products" 1500))
           (fun err =>
              setError (Some "Failed to create product") ;;
              emit (console_error "Error creating product:" err)))
        (setLoading false).
End Screen.

(** [handleInputChange(field, value)] at its call sites: one per input of
    the form, the text inputs with [e.target.value] and the two switches
    with [e.target.checked]. *)
Inductive Input :=
| name (value : string)
| brand (value : string)
| description (value : string)
| price (value : string)
| stockQuantity (value : string)
| layout (value : string)
| switchType (value : string)
| keycapMaterial (value : string)
| caseMaterial (value : string)
| rgbSupport (checked : bool)
| wirelessSupport (checked : bool)
| imageUrl (value : string).

(** [{...prev, [field]: value}] *)
Definition assign (i : Input) (prev : FormData.t) : FormData.t :=
  let '(FormData.mk n d p b l s k c rgb wl q img) := prev in
  match i with
  | name v => FormData.mk v d p b l s k c rgb wl q img
  | brand v => FormData.mk n d p v l s k c rgb wl q img
  | description v => FormData.mk n v p b l s k c rgb wl q img
  | price v => FormData.mk n d v b l s k c rgb wl q img
  | stockQuantity v => FormData.mk n d p b l s k c rgb wl v img
  | layout v => FormData.mk n d p b v s k c rgb wl q img
  | switchType v => FormData.mk n d p b l v k c rgb wl q img
  | keycapMaterial v => FormData.mk n d p b l s v c rgb wl q img
  | caseMaterial v => FormData.mk n d p b l s k v rgb wl q img
  | rgbSupport v => FormData.mk n d p b l s k c v wl q img
  | wirelessSupport v => FormData.mk n d p b l s k c rgb v q img
  | imageUrl v => FormData.mk n d p b l s k c rgb wl q v
  end.

(** [setFormData(prev => ..)]: the update is applied to the current state. *)
Definition setFormData {Server : Type} (g : FormData.t -> FormData.t)
  : Async View Server unit :=
  setState (fun v => mkView (loading v) (error v) (success v)
                            (keyboardLayouts v) (g (formData v))).

Definition handleInputChange {Server : Type} (i : Input)
  : Async View Server unit :=
  setFormData (assign i).

Section Layouts.
Context {Server : Type}.
Variable getKeyboardLayouts : Server -> Outcome (list string) * Server.

Definition setKeyboardLayouts (x : list string) : Async View Server unit :=
  setState (fun v => mkView (loading v) (error v) (success v) x (formData v)).

(** The effect run on mount. *)
Definition fetchKeyboardLayouts : Async View Server unit :=
  try_catch
    (layouts <- request getKeyboardLayouts ;;
     setKeyboardLayouts layouts)
    (fun err => emit (console_error "Error fetching keyboard layouts:" err)).
End Layouts.

(** The submit and cancel buttons are disabled while a submission is in
    flight. *)
Definition submit_disabled (shown : View) : bool := loading shown.

End AdminProductForm.
(* ================================================================== *)
(** ** Sample sessions, products and services *)
(* ================================================================== *)

Definition anonymous : Session.t := Session.mk false None.

(** A cart holder that counts the items it was given. *)
Definition counting_cart (item : AddToCartRequest.t) (n : nat)
  : Outcome unit * nat :=
  (Resolved tt, S n).

Definition customer : Session.t :=
  Session.mk true (Some (Session.mkUser 2 "CUSTOMER")).

Definition admin : Session.t :=
  Session.mk true (Some (Session.mkUser 1 "ADMIN")).

(** A keyboard with the given stock. *)
Definition keeb (stock : Z) : Product.t :=
  Product.mk 11 "Keychron K2" "A compact wireless board"
             (JS.Dec false 8999 (-2)) "Keychron" "SEVENTY_FIVE_PERCENT"
             "Gateron Brown" "ABS" "Aluminum" true true stock "".

Definition order42 : Order.t :=
  Order.mk 42 2 [OrderItem.mk (keeb 9) 1] (JS.Dec false 8999 (-2))
           PENDING "2025-01-15T10:30:00".

(** A server that holds the orders and applies status updates. *)
Definition set_status (id : Z) (status : OrderStatus) (o : Order.t) : Order.t :=
  if Order.id o =? id
  then Order.mk (Order.id o) (Order.userId o) (Order.items o)
                (Order.totalAmount o) status (Order.createdAt o)
  else o.

Definition orders_up : AdminOrders.Api (list Order.t) :=
  AdminOrders.mkApi _
    (fun s => (Resolved s, s))
    (fun id status s => (Resolved tt, map (set_status id status) s)).

(** A server whose status update fails. *)
Definition orders_update_down : AdminOrders.Api (list Order.t) :=
  AdminOrders.mkApi _
    (fun s => (Resolved s, s))
    (fun id status s => (Rejected "Request failed with status code 500", s)).

(** The dialog open on [order42], with SHIPPED picked. *)
Definition dialog_open : AdminOrders.View :=
  AdminOrders.mkView [order42] false None true (Some order42) SHIPPED.

(* ================================================================== *)
(** ** Stated properties *)
(* ================================================================== *)

(** The stepper's invariant: product [p] is shown and the quantity is at
    least 1 and at most the stock, or 1 when the stock is below 1. *)
Definition stepper_in_range {Cart : Type} (p : Product.t)
           (w : World ProductDetail.View Cart) : Prop :=
  ProductDetail.product (view w) = Some p
  /\ 1 <= ProductDetail.quantity (view w) <= Z.max 1 (Product.stockQuantity p).





(** A submission the form is stated to refuse: a required field is empty,
    or the price does not parse as a number above 0, or the stock quantity
    does not parse as an integer of at least 0. *)
Definition refused_as_stated (f : FormData.t) : Prop :=
  FormData.name f = ""
  \/ FormData.description f = ""
  \/ FormData.price f = ""
  \/ FormData.brand f = ""
  \/ FormData.stockQuantity f = ""
  \/ JS.gtZero (JS.parseFloat (FormData.price f)) = false
  \/ JS.geZero (JS.parseInt (FormData.stockQuantity f)) = false.

(** What a refused submission leaves behind: the message in the error
    state, the default action prevented, and nothing else. *)
Definition refused_with {Server : Type} (message : string)
           (w : World AdminProductForm.View Server)
  : Outcome unit * World AdminProductForm.View Server :=
  (Resolved tt,
   mkWorld (AdminProductForm.mkView
              (AdminProductForm.loading (view w)) (Some message)
              (AdminProductForm.success (view w))
              (AdminProductForm.keyboardLayouts (view w))
              (AdminProductForm.formData (view w)))
           (remote w) (trace w ++ [preventDefault])).

(** A submission that gets through the three guards. *)
Definition passes_validation (f : FormData.t) : Prop :=
  AdminProductForm.missingRequired f = false
  /\ AdminProductForm.invalidPrice f = false
  /\ AdminProductForm.invalidStockQuantity f = false.

(** The form filled in, with the given price and stock quantity typed. *)
Definition filled (price stockQuantity : string) : FormData.t :=
  FormData.mk "Keychron K2" "A compact wireless board" price "Keychron"
              "SEVENTY_FIVE_PERCENT" "Gateron Brown" "ABS" "Aluminum"
              true true stockQuantity "".

Definition form_showing (f : FormData.t) : AdminProductForm.View :=
  AdminProductForm.mkView false None None [] f.

(** A server that stores the products it is sent. *)
Definition products_up : AdminProductForm.Api (list ProductData.t) :=
  AdminProductForm.mkApi _ (fun data s => (Resolved tt, (s ++ [data])%list)).

(** A server whose create call fails. *)
Definition products_down : AdminProductForm.Api (list ProductData.t) :=
  AdminProductForm.mkApi _
    (fun data s => (Rejected "Request failed with status code 500", s)).

(** An enabled button labelled [Add to Cart]. *)
Definition enabledAddToCart (n : Node) : bool :=
  match n with
  | Button label disabled => String.eqb label "Add to Cart" && negb disabled
  | _ => false
  end.

(** Text without the character [c]. *)
Fixpoint lacks (c : ascii) (s : string) : bool :=
  match s with
  | EmptyString => true
  | String d r => negb (JS.code d =? JS.code c)%N && lacks c r
  end.

(** Text within ASCII. *)
Fixpoint is_ascii_text (s : string) : bool :=
  match s with
  | EmptyString => true
  | String c r => (JS.code c <? 128)%N && is_ascii_text r
  end.

(** The input of the product form an edit goes to. *)
Definition input_index (i : AdminProductForm.Input) : nat :=
  match i with
  | AdminProductForm.name _ => 0
  | AdminProductForm.brand _ => 1
  | AdminProductForm.description _ => 2
  | AdminProductForm.price _ => 3
  | AdminProductForm.stockQuantity _ => 4
  | AdminProductForm.layout _ => 5
  | AdminProductForm.switchType _ => 6
  | AdminProductForm.keycapMaterial _ => 7
  | AdminProductForm.caseMaterial _ => 8
  | AdminProductForm.rgbSupport _ => 9
  | AdminProductForm.wirelessSupport _ => 10
  | AdminProductForm.imageUrl _ => 11
  end%nat.

(** A catalogue server: it answers [getProducts] with its products and
    counts the requests. *)
Definition catalogue (products : list Product.t) (size : Z) (n : nat)
  : Outcome Home.ProductsResponse * nat :=
  (Resolved (Home.mkResponse (Some products)), S n).

Definition catalogue_down (size : Z) (n : nat)
  : Outcome Home.ProductsResponse * nat :=
  (Rejected "Network Error", S n).

(** A cart holder that refuses every item. *)
Definition failing_cart (item : AddToCartRequest.t) (n : nat)
  : Outcome unit * nat :=
  (Rejected "Request failed with status code 500", n).

(** A product server that knows the keyboard with id 11 only. *)
Definition product_server (id : JS.Number) (n : nat)
  : Outcome Product.t * nat :=
  match id with
  | JS.Dec false 11 0 => (Resolved (keeb 3), S n)
  | _ => (Rejected "Request failed with status code 404", S n)
  end.

(** The quantity after one click on the stepper, for a product with the
    given stock. *)
Definition stepper_next (stock q : Z) (a : ProductDetail.Action) : Z :=
  match a with
  | ProductDetail.Minus => if q <=? 1 then q else q - 1
  | ProductDetail.Plus => if stock <=? q then q else q + 1
  end.

(** An enabled button of purchase: the add-to-cart button, under either
    of its two labels. *)
Definition purchaseButtonEnabled (n : Node) : bool :=
  match n with
  | Button label disabled =>
      (String.eqb label "Add to Cart" || String.eqb label "Out of Stock")
      && negb disabled
  | _ => false
  end.

(** The add-to-cart button, disabled, under its out-of-stock label. *)
Definition purchaseButtonDisabled (n : Node) : bool :=
  match n with
  | Button label disabled => String.eqb label "Out of Stock" && disabled
  | _ => false
  end.

(** A required field of the form is empty. *)
Definition required_empty (f : FormData.t) : Prop :=
  FormData.name f = ""
  \/ FormData.description f = ""
  \/ FormData.price f = ""
  \/ FormData.brand f = ""
  \/ FormData.stockQuantity f = "".

(** A text of [n] nines. *)
Fixpoint nines (n : nat) : string :=
  match n with
  | O => EmptyString
  | S k => String "9" (nines k)
  end.

Example parseInt_samples :
  JS.parseInt "42" = JS.Dec false 42 0
  /\ JS.parseInt "  -17px" = JS.Dec true 17 0
  /\ JS.parseInt "0x1F" = JS.Dec false 31 0
  /\ JS.parseInt "3.9" = JS.Dec false 3 0
  /\ JS.parseInt "-0" = JS.Dec true 0 0
  /\ JS.parseInt "abc" = JS.NaN
  /\ JS.parseInt "" = JS.NaN
  /\ JS.parseInt "-" = JS.NaN.
Proof. repeat split. Qed.

Example parseFloat_samples :
  JS.parseFloat "3.14" = JS.Dec false 314 (-2)
  /\ JS.parseFloat "-5" = JS.Dec true 5 0
  /\ JS.parseFloat "5abc" = JS.Dec false 5 0
  /\ JS.parseFloat ".5e1x" = JS.Dec false 5 0
  /\ JS.parseFloat "5.e3" = JS.Dec false 5 3
  /\ JS.parseFloat "1e" = JS.Dec false 1 0
  /\ JS.parseFloat "1e-" = JS.Dec false 1 0
  /\ JS.parseFloat "abc" = JS.NaN
  /\ JS.parseFloat "." = JS.NaN
  /\ JS.parseFloat ".e3" = JS.NaN
  /\ JS.parseFloat "-Infinityx" = JS.Infinity true.
Proof. repeat split. Qed.

Example formatCurrency_samples :
  JS.formatCurrencyUSD (JS.Dec false 12345 (-1)) = "$1,234.50"
  /\ JS.formatCurrencyUSD (JS.Dec false 0 0) = "$0.00"
  /\ JS.formatCurrencyUSD (JS.Dec false 1234567 0) = "$1,234,567.00"
  /\ JS.formatCurrencyUSD (JS.Dec false 999 0) = "$999.00"
  /\ JS.formatCurrencyUSD (JS.Dec true 19995 (-3)) = "-$20.00"
  /\ JS.formatCurrencyUSD (JS.Dec false 125 (-3)) = "$0.13"
  /\ JS.formatCurrencyUSD (JS.Dec false 7 (-2)) = "$0.07".
Proof. repeat split. Qed.

(* ================================================================== *)
(** ** Traces *)
(* ================================================================== *)

Local Open Scope list_scope.

Lemma calls_of_app (a b : list Event) :
  calls_of (a ++ b) = calls_of a ++ calls_of b.
Proof. unfold calls_of. apply filter_app. Qed.

Lemma calls_of_snoc_call (tr : list Event) (c : Call) :
  calls_of (tr ++ [calls c]) = calls_of tr ++ [calls c].
Proof. now rewrite calls_of_app. Qed.

Lemma calls_of_snoc_other (tr : list Event) (e : Event) :
  is_call e = false -> calls_of (tr ++ [e]) = calls_of tr.
Proof.
  intros He. rewrite calls_of_app. unfold calls_of at 2. simpl.
  rewrite He. apply app_nil_r.
Qed.

(* ================================================================== *)
(** ** Add to cart without a session (Home, ProductDetail) *)
(* ================================================================== *)

(** C4. While the session is unauthenticated, add-to-cart on a home card
    and on the product detail screen only navigates to the login route: the
    trace gains [navigate "/login"] and nothing else, so [addToCart] is not
    called, and the cart holder and the screen state are left as they were. *)
Theorem unauthenticated_add_to_cart_redirects
    {Cart : Type} (addToCart : AddToCartRequest.t -> Cart -> Outcome unit * Cart)
    (session : Session.t) (productId : Z)
    (w : World Home.View Cart)
    (shown : ProductDetail.View) (w' : World ProductDetail.View Cart) :
  Session.isAuthenticated session = false ->
  Home.handleAddToCart addToCart session productId w
    = (Resolved tt, mkWorld (view w) (remote w) (trace w ++ [navigate "/login"]))
  /\ calls_of (trace (snd (Home.handleAddToCart addToCart session productId w)))
     = calls_of (trace w)
  /\ ProductDetail.handleAddToCart addToCart session shown w'
    = (Resolved tt, mkWorld (view w') (remote w') (trace w' ++ [navigate "/login"]))
  /\ calls_of (trace (snd (ProductDetail.handleAddToCart addToCart session shown w')))
     = calls_of (trace w').
Proof.
  intros Hanon.
  unfold Home.handleAddToCart, ProductDetail.handleAddToCart.
  rewrite Hanon. cbn [negb]. unfold emit. cbn [snd trace].
  repeat split; now apply calls_of_snoc_other.
Qed.

Lemma unauthenticated_add_to_cart_redirects_witness :
  Home.handleAddToCart counting_cart anonymous 7
      (mkWorld (Home.mkView [] false None) 0%nat [])
    = (Resolved tt, mkWorld (Home.mkView [] false None) 0%nat [navigate "/login"]).
Proof.
  exact (proj1 (unauthenticated_add_to_cart_redirects counting_cart anonymous 7
                  (mkWorld (Home.mkView [] false None) 0%nat [])
                  ProductDetail.initial
                  (mkWorld ProductDetail.initial 0%nat [])
                  eq_refl)).
Defined.

(** With a session the same handlers do call the cart holder. *)
Example authenticated_add_to_cart_calls :
  Home.handleAddToCart counting_cart (Session.mk true None) 7
      (mkWorld (Home.mkView [] false None) 0%nat [])
    = (Resolved tt,
       mkWorld (Home.mkView [] false None) 1%nat
               [calls (call_addToCart (AddToCartRequest.mk 7 1))]).
Proof. reflexivity. Qed.

(* ================================================================== *)
(** ** The status dialog of AdminOrders *)
(* ================================================================== *)

Section StatusDialog.
Context {Server : Type}.
Variable api : AdminOrders.Api Server.

Import AdminOrders.

(** [fetchOrders] catches its own failures: it always resolves, makes
    one call, and leaves the dialog as it was. *)
Lemma fetchOrders_resolves (w : World View Server) :
  exists w1,
    fetchOrders api w = (Resolved tt, w1)
    /\ calls_of (trace w1) = calls_of (trace w) ++ [calls call_getAllOrders]
    /\ statusDialogOpen (view w1) = statusDialogOpen (view w)
    /\ selectedOrder (view w1) = selectedOrder (view w)
    /\ newStatus (view w1) = newStatus (view w)
    /\ loading (view w1) = false
    /\ remote w1 = snd (getAllOrders api (remote w))
    /\ orders (view w1)
       = match fst (getAllOrders api (remote w)) with
         | Resolved data => data
         | Rejected _ => orders (view w)
         end.
Proof.
  unfold fetchOrders, try_finally, try_catch, bind, await, setLoading,
    setOrders, setError, setState, emit.
  cbn [view remote trace].
  destruct (getAllOrders api (remote w)) as [[data | e] s1];
    cbn [fst snd view remote trace orders loading error statusDialogOpen
         selectedOrder newStatus];
    eexists; split; try reflexivity; cbn [fst snd view remote trace orders
         loading error statusDialogOpen selectedOrder newStatus];
    repeat split.
  - apply calls_of_snoc_call.
  - rewrite calls_of_snoc_other by reflexivity. apply calls_of_snoc_call.
Qed.

(** C10. With no order selected, the confirm handler returns at once:
    no call, no effect, and the whole world (orders, error, dialog flag,
    selected order, pending status, server) is what it was. *)
Theorem status_submit_without_selection (shown : View) (w : World View Server) :
  selectedOrder shown = None ->
  handleStatusSubmit api shown w = (Resolved tt, w).
Proof.
  intros Hnone. unfold handleStatusSubmit. now rewrite Hnone.
Qed.

(** The run of the confirm handler with an order selected, split by the
    answer to the update call. *)
Lemma status_submit_rejected (shown : View) (w : World View Server)
      (order : Order.t) (e : Error) (s1 : Server) :
  selectedOrder shown = Some order ->
  updateOrderStatus api (Order.id order) (newStatus shown) (remote w)
    = (Rejected e, s1) ->
  handleStatusSubmit api shown w
  = (Resolved tt,
     mkWorld (mkView (orders (view w)) (loading (view w))
                     (Some "Failed to update order status"%string)
                     (statusDialogOpen (view w)) (selectedOrder (view w))
                     (newStatus (view w)))
             s1
             (trace w
              ++ [calls (call_updateOrderStatus (Order.id order) (newStatus shown))]
              ++ [console_error "Error updating order status:" e])).
Proof.
  intros Hsel Hupd.
  unfold handleStatusSubmit. rewrite Hsel.
  unfold try_catch, bind at 1, await. rewrite Hupd.
  unfold bind, setError, setState, emit. cbn [view remote trace].
  now rewrite <- app_assoc.
Qed.

Lemma status_submit_resolved (shown : View) (w : World View Server)
      (order : Order.t) (s1 : Server) :
  selectedOrder shown = Some order ->
  updateOrderStatus api (Order.id order) (newStatus shown) (remote w)
    = (Resolved tt, s1) ->
  exists w1,
    handleStatusSubmit api shown w = (Resolved tt, w1)
    /\ calls_of (trace w1)
       = calls_of (trace w)
         ++ [calls (call_updateOrderStatus (Order.id order) (newStatus shown));
             calls call_getAllOrders]
    /\ statusDialogOpen (view w1) = false
    /\ selectedOrder (view w1) = None
    /\ orders (view w1)
       = match fst (getAllOrders api s1) with
         | Resolved data => data
         | Rejected _ => orders (view w)
         end.
Proof.
  intros Hsel Hupd.
  unfold handleStatusSubmit. rewrite Hsel.
  unfold try_catch, bind at 1, await. rewrite Hupd.
  unfold bind at 1.
  destruct (fetchOrders_resolves
              (mkWorld (view w) s1
                 (trace w ++ [calls (call_updateOrderStatus (Order.id order)
                                                            (newStatus shown))])))
    as (w1 & Hrun & Hcalls & _ & _ & _ & _ & _ & Horders).
  rewrite Hrun.
  unfold bind, setStatusDialogOpen, setSelectedOrder, setState.
  cbn [view remote trace] in *.
  eexists; split; [reflexivity|].
  cbn [view remote trace statusDialogOpen selectedOrder orders].
  repeat split; trivial.
  rewrite Hcalls, calls_of_snoc_call, <- app_assoc. reflexivity.
Qed.

(** C2, as the code has it. With an order selected, a failed update call
    sets the error message shown in the banner and leaves the dialog as
    it was (open, the order still selected); a successful one closes the
    dialog and clears the selection. *)
Theorem status_submit_dialog_after_update
    (shown : View) (w : World View Server) (order : Order.t) :
  selectedOrder shown = Some order ->
  let answer := fst (updateOrderStatus api (Order.id order) (newStatus shown)
                                       (remote w)) in
  let w1 := snd (handleStatusSubmit api shown w) in
  (forall e, answer = Rejected e ->
     error (view w1) = Some "Failed to update order status"%string
     /\ statusDialogOpen (view w1) = statusDialogOpen (view w)
     /\ selectedOrder (view w1) = selectedOrder (view w))
  /\ (answer = Resolved tt ->
      statusDialogOpen (view w1) = false /\ selectedOrder (view w1) = None).
Proof.
  intros Hsel answer w1. subst answer w1.
  destruct (updateOrderStatus api (Order.id order) (newStatus shown) (remote w))
    as [[[] | e] s1] eqn:Hupd; cbn [fst]; split.
  - intros e He. discriminate He.
  - intros _.
    destruct (status_submit_resolved shown w order s1 Hsel Hupd)
      as (w1 & Hrun & _ & Hopen & Hnone & _).
    rewrite Hrun. cbn [snd]. now split.
  - intros e' He'. injection He' as <-.
    rewrite (status_submit_rejected shown w order e s1 Hsel Hupd).
    cbn [snd view error statusDialogOpen selectedOrder]. now repeat split.
  - intros He. discriminate He.
Qed.

(** C5, as the code has it. With an order selected, confirming issues
    exactly one update call, with the selected order's id and the status
    picked; when that call succeeds it is followed by exactly one fetch of
    the order list, and when it fails no fetch follows. The orders shown
    are then the fetched list, or the previous list when nothing was
    fetched: the handler never patches them itself. *)
Theorem status_submit_calls
    (shown : View) (w : World View Server) (order : Order.t) :
  selectedOrder shown = Some order ->
  let update := call_updateOrderStatus (Order.id order) (newStatus shown) in
  let answer := updateOrderStatus api (Order.id order) (newStatus shown)
                                  (remote w) in
  let w1 := snd (handleStatusSubmit api shown w) in
  match fst answer with
  | Resolved _ =>
      calls_of (trace w1)
      = calls_of (trace w) ++ [calls update; calls call_getAllOrders]
      /\ orders (view w1)
         = match fst (getAllOrders api (snd answer)) with
           | Resolved data => data
           | Rejected _ => orders (view w)
           end
  | Rejected _ =>
      calls_of (trace w1) = calls_of (trace w) ++ [calls update]
      /\ orders (view w1) = orders (view w)
  end.
Proof.
  intros Hsel update answer w1. subst update answer w1.
  destruct (updateOrderStatus api (Order.id order) (newStatus shown) (remote w))
    as [[[] | e] s1] eqn:Hupd; cbn [fst snd].
  - destruct (status_submit_resolved shown w order s1 Hsel Hupd)
      as (w1 & Hrun & Hcalls & _ & _ & Horders).
    rewrite Hrun. cbn [snd]. now split.
  - rewrite (status_submit_rejected shown w order e s1 Hsel Hupd).
    cbn [snd view trace orders]. split; [|reflexivity].
    rewrite app_assoc, calls_of_snoc_other by reflexivity.
    apply calls_of_snoc_call.
Qed.
End StatusDialog.

(** C2 as stated fails: when the update call fails, the dialog is still
    open after the handler has completed. *)
Lemma status_dialog_stays_open_on_failure :
  let w1 := snd (click (AdminOrders.handleStatusSubmit orders_update_down)
                       (mkWorld dialog_open [order42] [])) in
  AdminOrders.error (view w1) = Some "Failed to update order status"%string
  /\ AdminOrders.statusDialogOpen (view w1) <> false.
Proof. cbn. split; [reflexivity | discriminate]. Qed.

(** C5 as stated fails: when the update call fails, the calls are not
    an update followed by a fetch; the update is the only call. *)
Lemma status_update_failure_has_no_refetch :
  let w1 := snd (click (AdminOrders.handleStatusSubmit orders_update_down)
                       (mkWorld dialog_open [order42] [])) in
  calls_of (trace w1) = [calls (call_updateOrderStatus 42 SHIPPED)]
  /\ calls_of (trace w1)
     <> [calls (call_updateOrderStatus 42 SHIPPED); calls call_getAllOrders].
Proof. cbn. split; [reflexivity | discriminate]. Qed.

Lemma status_submit_without_selection_witness :
  AdminOrders.handleStatusSubmit orders_up AdminOrders.initial
      (mkWorld AdminOrders.initial [order42] [])
    = (Resolved tt, mkWorld AdminOrders.initial [order42] []).
Proof.
  exact (status_submit_without_selection orders_up AdminOrders.initial
           (mkWorld AdminOrders.initial [order42] []) eq_refl).
Defined.

Lemma status_submit_dialog_after_update_witness :
  let w1 := snd (AdminOrders.handleStatusSubmit orders_up dialog_open
                   (mkWorld dialog_open [order42] [])) in
  AdminOrders.statusDialogOpen (view w1) = false
  /\ AdminOrders.selectedOrder (view w1) = None.
Proof.
  exact (proj2 (status_submit_dialog_after_update orders_up dialog_open
                  (mkWorld dialog_open [order42] []) order42 eq_refl)
               eq_refl).
Defined.

Lemma status_submit_calls_witness :
  let w1 := snd (AdminOrders.handleStatusSubmit orders_up dialog_open
                   (mkWorld dialog_open [order42] [])) in
  calls_of (trace w1)
  = [calls (call_updateOrderStatus 42 SHIPPED); calls call_getAllOrders]
  /\ AdminOrders.orders (view w1) = [set_status 42 SHIPPED order42].
Proof.
  exact (status_submit_calls orders_up dialog_open
           (mkWorld dialog_open [order42] []) order42 eq_refl).
Defined.

(* ================================================================== *)
(** ** Stock status on the two screens *)
(* ================================================================== *)

(** Comparisons in [bool] against their statements in [Z]. *)
Ltac z_bool :=
  rewrite ?andb_true_iff, ?andb_false_iff, ?Z.ltb_lt, ?Z.leb_le, ?Z.leb_gt,
    ?Z.ltb_ge, ?Z.eqb_eq, ?Z.eqb_neq;
  lia.

Lemma detail_low_stock_warning (p : Product.t) :
  any_node lowStockWarning (ProductDetail.stockStatus p)
  = (0 <? Product.stockQuantity p) && (Product.stockQuantity p <=? 5).
Proof.
  unfold ProductDetail.stockStatus, when.
  destruct (Product.stockQuantity p =? 0);
    destruct ((0 <? Product.stockQuantity p) && (Product.stockQuantity p <=? 5));
    reflexivity.
Qed.

Lemma detail_out_of_stock_warning (p : Product.t) :
  any_node outOfStockWarning (ProductDetail.stockStatus p)
  = (Product.stockQuantity p <=? 0).
Proof.
  unfold ProductDetail.stockStatus, when.
  destruct (Z.eqb_spec (Product.stockQuantity p) 0) as [-> | Hne];
    [reflexivity|].
  destruct (Z.ltb_spec 0 (Product.stockQuantity p));
    destruct (Z.leb_spec (Product.stockQuantity p) 0); try lia;
    destruct (Product.stockQuantity p <=? 5); reflexivity.
Qed.

Lemma home_low_stock_warning (session : Session.t) (p : Product.t) :
  any_node lowStockWarning (Home.card session p) = false.
Proof.
  unfold Home.card, Home.stockStatus, Home.cardAction.
  destruct (Home.isAdmin session); reflexivity.
Qed.

Lemma home_out_of_stock_warning (session : Session.t) (p : Product.t) :
  any_node outOfStockWarning (Home.card session p)
  = (Product.stockQuantity p <=? 0).
Proof.
  unfold Home.card, Home.stockStatus, Home.cardAction.
  destruct (Z.ltb_spec 0 (Product.stockQuantity p));
    destruct (Z.leb_spec (Product.stockQuantity p) 0); try lia;
    destruct (Home.isAdmin session); reflexivity.
Qed.

(** C1 as stated fails on the home card: with three in stock, the card of
    a customer (and of an admin) holds no low-stock warning. *)
Lemma home_card_has_no_low_stock_warning :
  1 <= Product.stockQuantity (keeb 3) <= 5
  /\ Home.stockStatus (keeb 3) = Box [Chip "In Stock (3)" "success"]
  /\ any_node lowStockWarning (Home.card customer (keeb 3)) <> true
  /\ any_node lowStockWarning (Home.card admin (keeb 3)) <> true.
Proof. cbn. repeat split; try lia; discriminate. Qed.

(** C1, as the code has it. On the product detail screen a low-stock
    warning is rendered for a stock of 1 to 5, an out-of-stock warning for
    a stock of 0, and neither above 5. On a home card the stock chip is
    the out-of-stock one for a stock of 0, and for any stock above 0 the
    card holds neither warning: the chip says in stock, with the count. *)
Theorem stock_warnings_by_screen (session : Session.t) (p : Product.t) :
  let q := Product.stockQuantity p in
  let detail := ProductDetail.stockStatus p in
  let home := Home.card session p in
  (1 <= q <= 5 -> any_node lowStockWarning detail = true)
  /\ (q = 0 -> any_node outOfStockWarning detail = true)
  /\ (5 < q -> any_node lowStockWarning detail = false
               /\ any_node outOfStockWarning detail = false)
  /\ (q = 0 -> any_node outOfStockWarning home = true)
  /\ (0 < q -> any_node lowStockWarning home = false
               /\ any_node outOfStockWarning home = false
               /\ Home.stockStatus p
                  = Box [Chip ("In Stock (" ++ JS.toString q ++ ")")%string
                              "success"]).
Proof.
  intros q detail home. subst detail home.
  rewrite detail_low_stock_warning, detail_out_of_stock_warning,
    home_low_stock_warning, home_out_of_stock_warning.
  fold q. unfold Home.stockStatus. fold q.
  repeat split; intros; trivial; try z_bool.
  replace (0 <? q) with true by (symmetry; z_bool).
  reflexivity.
Qed.

Lemma stock_warnings_by_screen_witness :
  any_node lowStockWarning (ProductDetail.stockStatus (keeb 3)) = true
  /\ any_node outOfStockWarning (ProductDetail.stockStatus (keeb 0)) = true
  /\ any_node outOfStockWarning (Home.card customer (keeb 0)) = true
  /\ any_node lowStockWarning (ProductDetail.stockStatus (keeb 9)) = false.
Proof.
  split; [| split; [| split]].
  - apply (stock_warnings_by_screen customer (keeb 3)). cbn. lia.
  - apply (stock_warnings_by_screen customer (keeb 0)). reflexivity.
  - apply (stock_warnings_by_screen customer (keeb 0)). reflexivity.
  - apply (stock_warnings_by_screen customer (keeb 9)). cbn. lia.
Defined.

(* ================================================================== *)
(** ** The quantity stepper of ProductDetail *)
(* ================================================================== *)

Section Stepper.
Context {Cart : Type}.
Variable p : Product.t.

Import ProductDetail.

Lemma loaded_in_range (cart : Cart) : stepper_in_range p (loaded p cart).
Proof. unfold stepper_in_range, loaded. cbn. split; [reflexivity | lia]. Qed.

Lemma dispatch_in_range (a : Action) (w : World View Cart) :
  stepper_in_range p w ->
  exists w1, dispatch a w = (Resolved tt, w1) /\ stepper_in_range p w1.
Proof.
  intros [Hp Hq].
  unfold dispatch, click. rewrite Hp.
  destruct a.
  - unfold minus_disabled, minus_onClick, setQuantity, setState.
    destruct (Z.leb_spec (quantity (view w)) 1).
    + eexists; split; [reflexivity | now split].
    + eexists; split; [reflexivity|].
      split; cbn; [assumption | lia].
  - unfold plus_disabled, plus_onClick, setQuantity, setState.
    destruct (Z.leb_spec (Product.stockQuantity p) (quantity (view w))).
    + eexists; split; [reflexivity | now split].
    + eexists; split; [reflexivity|].
      split; cbn; [assumption | lia].
Qed.

Lemma dispatch_all_in_range (actions : list Action) (w : World View Cart) :
  stepper_in_range p w ->
  exists w1,
    dispatch_all actions w = (Resolved tt, w1) /\ stepper_in_range p w1.
Proof.
  revert w. induction actions as [| a rest IH]; intros w Hw.
  - exists w. now split.
  - destruct (dispatch_in_range a w Hw) as (w1 & Hrun & Hw1).
    destruct (IH w1 Hw1) as (w2 & Hrest & Hw2).
    exists w2. split; [| assumption].
    cbn [dispatch_all]. unfold bind. now rewrite Hrun.
Qed.

(** C3, as the code has it. From the initial quantity 1, whatever the
    sequence of clicks on the two buttons, the quantity stays in
    [1, stockQuantity] when the stock is at least 1, and stays 1 when the
    stock is below 1. *)
Theorem stepper_quantity_in_range (cart : Cart) (actions : list Action) :
  let q := quantity_after p cart actions in
  (1 <= Product.stockQuantity p -> 1 <= q <= Product.stockQuantity p)
  /\ (Product.stockQuantity p < 1 -> q = 1).
Proof.
  intros q. subst q. unfold quantity_after.
  destruct (dispatch_all_in_range actions (loaded p cart) (loaded_in_range cart))
    as (w1 & Hrun & _ & Hq).
  rewrite Hrun. cbn [snd]. split; intros; lia.
Qed.
End Stepper.

(** C3 as stated fails for a product that is out of stock: the quantity
    starts at 1, above the stock of 0, before any click. *)
Lemma stepper_quantity_above_zero_stock :
  ProductDetail.quantity_after (keeb 0) tt [] = 1
  /\ ~ (1 <= ProductDetail.quantity_after (keeb 0) tt []
        <= Product.stockQuantity (keeb 0)).
Proof. cbn. split; [reflexivity | lia]. Qed.

Lemma stepper_quantity_in_range_witness :
  1 <= ProductDetail.quantity_after (keeb 3) tt
         [ProductDetail.Plus; ProductDetail.Plus; ProductDetail.Plus;
          ProductDetail.Plus; ProductDetail.Minus]
    <= 3.
Proof.
  apply (stepper_quantity_in_range (keeb 3) tt
           [ProductDetail.Plus; ProductDetail.Plus; ProductDetail.Plus;
            ProductDetail.Plus; ProductDetail.Minus]).
  cbn. lia.
Defined.

Example stepper_run :
  ProductDetail.quantity_after (keeb 3) tt
    [ProductDetail.Plus; ProductDetail.Plus; ProductDetail.Plus;
     ProductDetail.Plus; ProductDetail.Minus] = 2
  /\ ProductDetail.quantity_after (keeb 3) tt
       [ProductDetail.Minus; ProductDetail.Minus] = 1.
Proof. split; reflexivity. Qed.

(* ================================================================== *)
(** ** parseInt and parseFloat stop at the first foreign character *)
(* ================================================================== *)

Section PrefixParsing.
Import JS.












End PrefixParsing.

(* ================================================================== *)
(** ** The product form of the admin area *)
(* ================================================================== *)

Lemma not_gtZero (x : JS.Number) :
  JS.gtZero x = false -> JS.isNaN x || JS.leZero x = true.
Proof.
  destruct x as [| neg | neg m e]; cbn; [reflexivity | now destruct neg |].
  destruct neg, (JS.rounds_to_zero m e); cbn; congruence.
Qed.

Lemma not_geZero (x : JS.Number) :
  JS.geZero x = false -> JS.isNaN x || JS.ltZero x = true.
Proof.
  destruct x as [| neg | neg m e]; cbn; [reflexivity | now destruct neg |].
  destruct neg, (JS.rounds_to_zero m e); cbn; congruence.
Qed.

Lemma passed_price_gtZero (x : JS.Number) :
  JS.gtZero x = true -> JS.isNaN x || JS.leZero x = false.
Proof.
  destruct x as [| neg | neg m e]; cbn; [discriminate | now destruct neg |].
  destruct neg, (JS.rounds_to_zero m e); cbn; congruence.
Qed.

Lemma not_empty (s : string) : AdminProductForm.not_ s = true <-> s = ""%string.
Proof. destruct s; cbn; split; congruence. Qed.

Section ProductForm.
Context {Server : Type}.
Variable api : AdminProductForm.Api Server.

Import AdminProductForm.

Lemma handleSubmit_guards (shown : View) (w : World View Server) :
  missingRequired (formData shown) || invalidPrice (formData shown)
    || invalidStockQuantity (formData shown) = true ->
  exists message, handleSubmit api shown w = refused_with message w.
Proof.
  intros Hguard. unfold handleSubmit, refused_with, bind, emit.
  destruct (missingRequired (formData shown));
    [eexists; reflexivity|].
  destruct (invalidPrice (formData shown));
    [eexists; reflexivity|].
  destruct (invalidStockQuantity (formData shown));
    [eexists; reflexivity | discriminate].
Qed.

Lemma refused_is_guarded (f : FormData.t) :
  refused_as_stated f ->
  missingRequired f || invalidPrice f || invalidStockQuantity f = true.
Proof.
  unfold refused_as_stated, missingRequired, invalidPrice,
    invalidStockQuantity.
  rewrite <- !not_empty.
  intros [H | [H | [H | [H | [H | [H | H]]]]]];
    try (rewrite H, ?orb_true_r; reflexivity).
  - rewrite (not_gtZero _ H), ?orb_true_r. reflexivity.
  - rewrite (not_geZero _ H), ?orb_true_r. reflexivity.
Qed.

(** The run of a submission that gets through the guards, split by the
    answer to the create call. *)
Lemma handleSubmit_passes (shown : View) (w : World View Server) :
  passes_validation (formData shown) ->
  let data := productData (formData shown) in
  handleSubmit api shown w
  = match createProduct api data (remote w) with
    | (Resolved _, s1) =>
        (Resolved tt,
         mkWorld (mkView false None (Some "Product created successfully"%string)
                         (keyboardLayouts (view w)) (formData (view w)))
                 s1
                 (trace w ++ [preventDefault; calls (call_createProduct data);
                              setTimeout_navigate "/admin/products" 1500]))
    | (Rejected e, s1) =>
        (Resolved tt,
         mkWorld (mkView false (Some "Failed to create product"%string)
                         (success (view w))
                         (keyboardLayouts (view w)) (formData (view w)))
                 s1
                 (trace w ++ [preventDefault; calls (call_createProduct data);
                              console_error "Error creating product:" e]))
    end.
Proof.
  intros (Hreq & Hprice & Hstock) data. subst data.
  unfold handleSubmit. rewrite Hreq, Hprice, Hstock.
  unfold try_finally, try_catch, bind, await, emit, setLoading, setError,
    setSuccess, setState.
  cbn [view remote trace loading error success keyboardLayouts formData].
  destruct (createProduct api (productData (formData shown)) (remote w))
    as [[[] | e] s1];
    cbn [view remote trace loading error success keyboardLayouts formData];
    rewrite <- !app_assoc; reflexivity.
Qed.

Lemma handleSubmit_passes_calls (shown : View) (w : World View Server) :
  passes_validation (formData shown) ->
  calls_of (trace (snd (handleSubmit api shown w)))
  = calls_of (trace w)
    ++ [calls (call_createProduct (productData (formData shown)))].
Proof.
  intros Hpass. rewrite (handleSubmit_passes shown w Hpass).
  destruct (createProduct api (productData (formData shown)) (remote w))
    as [[[] | e] s1]; cbn [snd trace];
    rewrite calls_of_app; reflexivity.
Qed.

(** Which guard refuses a submission, and with which message. *)
Lemma handleSubmit_refusal (shown : View) (w : World View Server) :
  (missingRequired (formData shown) = true ->
   handleSubmit api shown w
   = refused_with "Please fill in all required fields" w)
  /\ (missingRequired (formData shown) = false ->
      invalidPrice (formData shown) = true ->
      handleSubmit api shown w = refused_with "Please enter a valid price" w)
  /\ (missingRequired (formData shown) = false ->
      invalidPrice (formData shown) = false ->
      invalidStockQuantity (formData shown) = true ->
      handleSubmit api shown w
      = refused_with "Please enter a valid stock quantity" w).
Proof.
  unfold handleSubmit, refused_with, bind, emit.
  repeat split; intros.
  - now rewrite H.
  - now rewrite H, H0.
  - now rewrite H, H0, H1.
Qed.

Lemma required_empty_iff (f : FormData.t) :
  required_empty f <-> missingRequired f = true.
Proof.
  unfold required_empty, missingRequired.
  rewrite !orb_true_iff, !not_empty. tauto.
Qed.

(** C6. A submission with a required field empty, or a price that does
    not parse as a number above 0, or a stock quantity that does not
    parse as an integer of at least 0, sets a validation message in the
    error state, one the error banner shows: the message about required
    fields when one is empty, else the one about the price when the price
    is at fault, else the one about the stock quantity. It makes no call:
    the calls of the trace and the server are what they were, and the form
    is untouched. *)
Theorem refused_submission_makes_no_call
    (shown : View) (w : World View Server) :
  refused_as_stated (formData shown) ->
  let f := formData shown in
  let w1 := snd (handleSubmit api shown w) in
  (exists message,
     error (view w1) = Some message /\ JS.truthy (error (view w1)) = true)
  /\ (required_empty f ->
      error (view w1) = Some "Please fill in all required fields"%string)
  /\ (~ required_empty f ->
      JS.gtZero (JS.parseFloat (FormData.price f)) = false ->
      error (view w1) = Some "Please enter a valid price"%string)
  /\ (~ required_empty f ->
      JS.gtZero (JS.parseFloat (FormData.price f)) = true ->
      error (view w1) = Some "Please enter a valid stock quantity"%string)
  /\ calls_of (trace w1) = calls_of (trace w)
  /\ remote w1 = remote w
  /\ formData (view w1) = formData (view w).
Proof.
  intros Hrefused f w1. subst w1.
  destruct (handleSubmit_refusal shown w) as (Hreq & Hprice & Hstock).
  pose proof (refused_is_guarded _ Hrefused) as Hguard. fold f in Hguard.
  fold f in Hreq, Hprice, Hstock.
  rewrite required_empty_iff.
  destruct (missingRequired f) eqn:Ereq.
  - rewrite (Hreq eq_refl). unfold refused_with.
    cbn [snd view remote trace error formData].
    repeat split; try congruence.
    + eexists. split; reflexivity.
    + now apply calls_of_snoc_other.
  - destruct (invalidPrice f) eqn:Eprice.
    + rewrite (Hprice eq_refl eq_refl). unfold refused_with.
      cbn [snd view remote trace error formData].
      repeat split; try congruence.
      * eexists. split; reflexivity.
      * intros _ Hgt. apply passed_price_gtZero in Hgt.
        unfold invalidPrice in Eprice. congruence.
      * now apply calls_of_snoc_other.
    + cbn [orb] in Hguard. rewrite (Hstock eq_refl eq_refl Hguard).
      unfold refused_with. cbn [snd view remote trace error formData].
      repeat split; try congruence.
      * eexists. split; reflexivity.
      * intros _ Hgt. apply not_gtZero in Hgt.
        unfold invalidPrice in Eprice. congruence.
      * now apply calls_of_snoc_other.
Qed.

(** C8. When a submission gets through validation and the create call
    fails, the error state holds the generic message, loading is off, and
    the form data are exactly what they were, so that submitting again
    sends the same product. *)
Theorem failed_create_keeps_form
    (w : World View Server) (e : Error) (s1 : Server) :
  passes_validation (formData (view w)) ->
  createProduct api (productData (formData (view w))) (remote w)
    = (Rejected e, s1) ->
  let w1 := snd (click (handleSubmit api) w) in
  error (view w1) = Some "Failed to create product"%string
  /\ formData (view w1) = formData (view w)
  /\ loading (view w1) = false
  /\ success (view w1) = success (view w)
  /\ calls_of (trace (snd (click (handleSubmit api) w1)))
     = calls_of (trace w1)
       ++ [calls (call_createProduct (productData (formData (view w))))].
Proof.
  intros Hpass Hfail w1.
  assert (Hrun : click (handleSubmit api) w
                 = (Resolved tt,
                    mkWorld (mkView false (Some "Failed to create product"%string)
                               (success (view w)) (keyboardLayouts (view w))
                               (formData (view w)))
                            s1
                            (trace w
                             ++ [preventDefault;
                                 calls (call_createProduct
                                          (productData (formData (view w))));
                                 console_error "Error creating product:" e]))).
  { unfold click. rewrite (handleSubmit_passes (view w) w Hpass), Hfail.
    reflexivity. }
  subst w1. rewrite Hrun.
  cbn [snd view error formData loading success].
  repeat split.
  unfold click. rewrite handleSubmit_passes_calls; [reflexivity|].
  exact Hpass.
Qed.

End ProductForm.

(** The examples of C6: the prices ["-5"] and ["abc"] and the stock
    quantity ["-1"] are refused, each with its message and without a call. *)
Example refused_examples :
  AdminProductForm.handleSubmit products_up (form_showing (filled "-5" "10"))
      (mkWorld (form_showing (filled "-5" "10")) [] [])
    = refused_with "Please enter a valid price"
        (mkWorld (form_showing (filled "-5" "10")) [] [])
  /\ AdminProductForm.handleSubmit products_up (form_showing (filled "abc" "10"))
      (mkWorld (form_showing (filled "abc" "10")) [] [])
    = refused_with "Please enter a valid price"
        (mkWorld (form_showing (filled "abc" "10")) [] [])
  /\ AdminProductForm.handleSubmit products_up (form_showing (filled "89.99" "-1"))
      (mkWorld (form_showing (filled "89.99" "-1")) [] [])
    = refused_with "Please enter a valid stock quantity"
        (mkWorld (form_showing (filled "89.99" "-1")) [] [])
  /\ AdminProductForm.handleSubmit products_up (form_showing (filled "" "10"))
      (mkWorld (form_showing (filled "" "10")) [] [])
    = refused_with "Please fill in all required fields"
        (mkWorld (form_showing (filled "" "10")) [] []).
Proof. repeat split; vm_compute; reflexivity. Qed.

Lemma refused_submission_makes_no_call_witness :
  let w := mkWorld (form_showing (filled "-5" "10")) [] [] in
  let w1 := snd (AdminProductForm.handleSubmit products_up
                   (form_showing (filled "-5" "10")) w) in
  AdminProductForm.error (view w1) = Some "Please enter a valid price"%string
  /\ calls_of (trace w1) = calls_of (trace w).
Proof.
  assert (Hrefused : refused_as_stated (filled "-5" "10")).
  { unfold refused_as_stated. do 5 right. left. vm_compute. reflexivity. }
  pose proof (refused_submission_makes_no_call products_up
                (form_showing (filled "-5" "10"))
                (mkWorld (form_showing (filled "-5" "10")) [] [])
                Hrefused) as H.
  destruct H as (_ & _ & Hprice & _ & Hcalls & _).
  split; [| exact Hcalls].
  apply Hprice.
  - unfold required_empty. cbn. intuition discriminate.
  - vm_compute. reflexivity.
Defined.

Lemma failed_create_keeps_form_witness :
  let w := mkWorld (form_showing (filled "89.99" "10")) [] [] in
  let w1 := snd (click (AdminProductForm.handleSubmit products_down) w) in
  AdminProductForm.error (view w1) = Some "Failed to create product"%string
  /\ AdminProductForm.formData (view w1) = filled "89.99" "10".
Proof.
  pose proof (failed_create_keeps_form products_down
                (mkWorld (form_showing (filled "89.99" "10")) [] [])
                "Request failed with status code 500"%string [])
    as H.
  assert (Hpass : passes_validation (filled "89.99" "10"))
    by (vm_compute; repeat split; reflexivity).
  specialize (H Hpass eq_refl).
  destruct H as (Herr & Hform & _).
  split; [exact Herr | exact Hform].
Defined.


(** The product sent for the price ["5abc"] and the stock ["3.9"]. *)
Example truncated_product_sent :
  AdminProductForm.handleSubmit products_up (form_showing (filled "5abc" "3.9"))
      (mkWorld (form_showing (filled "5abc" "3.9")) [] [])
  = (Resolved tt,
     mkWorld (AdminProductForm.mkView false None
                (Some "Product created successfully"%string) []
                (filled "5abc" "3.9"))
             [ProductData.mk "Keychron K2" "A compact wireless board"
                (JS.Dec false 5 0) "Keychron" "SEVENTY_FIVE_PERCENT"
                "Gateron Brown" "ABS" "Aluminum" true true
                (JS.Dec false 3 0) ""]
             [preventDefault;
              calls (call_createProduct
                       (ProductData.mk "Keychron K2" "A compact wireless board"
                          (JS.Dec false 5 0) "Keychron" "SEVENTY_FIVE_PERCENT"
                          "Gateron Brown" "ABS" "Aluminum" true true
                          (JS.Dec false 3 0) ""));
              setTimeout_navigate "/admin/products" 1500]).
Proof. vm_compute. reflexivity. Qed.

(* ================================================================== *)
(** ** Currency formatting *)
(* ================================================================== *)

(** The amount in cents depends on the value, not on how the decimal is
    written: [m * 10 * 10^(e-1)] and [m * 10^e] give the same cents. *)
Lemma cents_scale (m : N) (e : Z) : JS.cents (m * 10) (e - 1) = JS.cents m e.
Proof.
  unfold JS.cents.
  replace (e - 1 + 2) with (e + 1) by lia.
  destruct (Z.leb_spec 0 (e + 2)) as [Hge | Hlt];
    destruct (Z.leb_spec 0 (e + 1)) as [Hge1 | Hlt1]; try lia.
  - replace (e + 2) with (Z.succ (e + 1)) by lia.
    rewrite Z.pow_succ_r by assumption.
    rewrite Z2N.inj_mul by (try apply Z.pow_nonneg; lia).
    change (Z.to_N 10) with 10%N. lia.
  - replace (e + 2) with 0 by lia. replace (- (e + 1)) with 1 by lia.
    change (Z.to_N (10 ^ 1)) with 10%N. change (Z.to_N (10 ^ 0)) with 1%N.
    rewrite N.mul_1_r. symmetry.
    apply (N.div_unique _ _ _ 10%N); lia.
  - replace (- (e + 1)) with (Z.succ (- (e + 2))) by lia.
    rewrite Z.pow_succ_r by lia.
    rewrite Z2N.inj_mul by (try apply Z.pow_nonneg; lia).
    change (Z.to_N 10) with 10%N.
    set (k := Z.to_N (10 ^ (- (e + 2)))).
    assert (Hk : (0 < k)%N).
    { assert (0 < 10 ^ (- (e + 2))) by (apply Z.pow_pos_nonneg; lia).
      subst k. lia. }
    replace (2 * (m * 10) + 10 * k)%N with (10 * (2 * m + k))%N by lia.
    replace (2 * (10 * k))%N with (10 * (2 * k))%N by lia.
    apply N.Div0.div_mul_cancel_l; lia.
Qed.

Lemma formatCurrencyUSD_scale (neg : bool) (m : N) (e : Z) :
  JS.formatCurrencyUSD (JS.Dec neg (m * 10) (e - 1))
  = JS.formatCurrencyUSD (JS.Dec neg m e).
Proof. unfold JS.formatCurrencyUSD. now rewrite cents_scale. Qed.

(** C7. The currency formatter of the screens gives ["$1,234.50"] for
    1234.5 and ["$0.00"] for 0: dollar sign, groups of three, two fraction
    digits. It is the same function on Home, ProductDetail and
    AdminOrders. *)
Theorem formatPrice_examples :
  Home.formatPrice (JS.Dec false 12345 (-1)) = "$1,234.50"%string
  /\ Home.formatPrice (JS.Dec false 0 0) = "$0.00"%string
  /\ ProductDetail.formatPrice (JS.Dec false 12345 (-1)) = "$1,234.50"%string
  /\ ProductDetail.formatPrice (JS.Dec false 0 0) = "$0.00"%string
  /\ AdminOrders.formatPrice (JS.Dec false 12345 (-1)) = "$1,234.50"%string
  /\ AdminOrders.formatPrice (JS.Dec false 0 0) = "$0.00"%string.
Proof. repeat split. Qed.

(* ================================================================== *)
(** ** AdminOrders: loading the list, and the dialog from open to confirm *)
(* ================================================================== *)

Section OrdersScreen.
Context {Server : Type}.
Variable api : AdminOrders.Api Server.

Import AdminOrders.

(** X1. [fetchOrders] never rejects and always ends with loading off. When the
    list arrives it replaces the orders and clears the error; when the call
    fails the orders shown before stay and the error message is set. Either
    way it makes the one call and does not touch the dialog. *)
Theorem fetchOrders_settles (w : World View Server) :
  let answer := getAllOrders api (remote w) in
  let w1 := snd (fetchOrders api w) in
  fst (fetchOrders api w) = Resolved tt
  /\ loading (view w1) = false
  /\ remote w1 = snd answer
  /\ statusDialogOpen (view w1) = statusDialogOpen (view w)
  /\ selectedOrder (view w1) = selectedOrder (view w)
  /\ newStatus (view w1) = newStatus (view w)
  /\ match fst answer with
     | Resolved data =>
         orders (view w1) = data
         /\ error (view w1) = None
         /\ trace w1 = trace w ++ [calls call_getAllOrders]
     | Rejected e =>
         orders (view w1) = orders (view w)
         /\ error (view w1) = Some "Failed to load orders"%string
         /\ trace w1 = trace w ++ [calls call_getAllOrders;
                                   console_error "Error fetching orders:" e]
     end.
Proof.
  intros answer w1. subst answer w1.
  unfold fetchOrders, try_finally, try_catch, bind, await, setLoading,
    setOrders, setError, setState, emit.
  cbn [view remote trace].
  destruct (getAllOrders api (remote w)) as [[data | e] s1];
    cbn [fst snd view remote trace orders loading error statusDialogOpen
         selectedOrder newStatus];
    repeat split.
  now rewrite <- app_assoc.
Qed.

(** X2. Opening the dialog on an order selects it and preloads its status,
    whatever was selected or picked before; picking a status and confirming
    then sends that order's id with the status picked. *)
Theorem open_pick_confirm
    (w : World View Server) (order : Order.t) (status : OrderStatus) :
  let w1 := snd (handleStatusUpdate order w) in
  let w2 := snd (select_onChange status w1) in
  let w3 := snd (click (handleStatusSubmit api) w2) in
  statusDialogOpen (view w1) = true
  /\ selectedOrder (view w1) = Some order
  /\ newStatus (view w1) = Order.status order
  /\ trace w2 = trace w
  /\ remote w2 = remote w
  /\ exists rest,
       calls_of (trace w3)
       = calls_of (trace w)
         ++ calls (call_updateOrderStatus (Order.id order) status) :: rest
       /\ (rest = [] \/ rest = [calls call_getAllOrders]).
Proof.
  intros w1 w2 w3. subst w1 w2 w3.
  unfold handleStatusUpdate, select_onChange, bind, setSelectedOrder,
    setNewStatus, setStatusDialogOpen, setState.
  cbn [snd view remote trace statusDialogOpen selectedOrder newStatus].
  repeat split.
  unfold click. cbn [view].
  set (shown := mkView _ _ _ _ _ _).
  set (w2 := mkWorld shown (remote w) (trace w)).
  destruct (updateOrderStatus api (Order.id order) status (remote w2))
    as [[[] | e] s1] eqn:Hupd.
  - destruct (status_submit_resolved api shown w2 order s1 eq_refl Hupd)
      as (w3 & Hrun & Hcalls & _).
    rewrite Hrun. cbn [snd]. exists [calls call_getAllOrders].
    split; [exact Hcalls | now right].
  - rewrite (status_submit_rejected api shown w2 order e s1 eq_refl Hupd).
    cbn [snd trace]. exists []. split; [| now left].
    rewrite app_assoc, calls_of_snoc_other by reflexivity.
    apply calls_of_snoc_call.
Qed.

Lemma status_submit_without_selection_again
      (shown : View) (w : World View Server) :
  selectedOrder shown = None ->
  handleStatusSubmit api shown w = (Resolved tt, w).
Proof. intros Hnone. unfold handleStatusSubmit. now rewrite Hnone. Qed.

(** X3. Confirming a second time: after a failed update the dialog still holds
    the order and the status, so the same update call is sent again; after
    a successful one the selection is gone and the second click does
    nothing. *)
Theorem confirm_twice (w : World View Server) (order : Order.t) :
  selectedOrder (view w) = Some order ->
  let update := call_updateOrderStatus (Order.id order) (newStatus (view w)) in
  let first := click (handleStatusSubmit api) w in
  let second := click (handleStatusSubmit api) (snd first) in
  match fst (updateOrderStatus api (Order.id order) (newStatus (view w))
                               (remote w)) with
  | Rejected _ =>
      exists rest,
        calls_of (trace (snd second))
        = calls_of (trace (snd first)) ++ calls update :: rest
  | Resolved _ => second = (Resolved tt, snd first)
  end.
Proof.
  intros Hsel update first second. subst update first second.
  destruct (updateOrderStatus api (Order.id order) (newStatus (view w)) (remote w))
    as [[[] | e] s1] eqn:Hupd; cbn [fst].
  - destruct (status_submit_resolved api (view w) w order s1 Hsel Hupd)
      as (w1 & Hrun & _ & _ & Hnone & _).
    change (click (handleStatusSubmit api) w)
      with (handleStatusSubmit api (view w) w).
    rewrite Hrun. cbn [snd]. unfold click.
    now apply status_submit_without_selection_again.
  - change (click (handleStatusSubmit api) w)
      with (handleStatusSubmit api (view w) w).
    rewrite (status_submit_rejected api (view w) w order e s1 Hsel Hupd).
    cbn [snd]. unfold click.
    set (w1 := mkWorld _ _ _).
    assert (Hsel1 : selectedOrder (view w1) = Some order) by exact Hsel.
    assert (Hst : newStatus (view w1) = newStatus (view w)) by reflexivity.
    destruct (updateOrderStatus api (Order.id order) (newStatus (view w1))
                                (remote w1)) as [[[] | e'] s2] eqn:Hupd1.
    + destruct (status_submit_resolved api (view w1) w1 order s2 Hsel1 Hupd1)
        as (w2 & Hrun & Hcalls & _).
      rewrite Hrun. cbn [snd]. exists [calls call_getAllOrders].
      rewrite Hcalls, Hst. reflexivity.
    + rewrite (status_submit_rejected api (view w1) w1 order e' s2 Hsel1 Hupd1).
      cbn [snd trace]. exists [].
      rewrite app_assoc, calls_of_snoc_other by reflexivity.
      rewrite calls_of_snoc_call, Hst. reflexivity.
Qed.
End OrdersScreen.

Lemma confirm_twice_witness :
  let w := mkWorld dialog_open [order42] [] in
  let first := click (AdminOrders.handleStatusSubmit orders_update_down) w in
  let second := click (AdminOrders.handleStatusSubmit orders_update_down)
                      (snd first) in
  exists rest,
    calls_of (trace (snd second))
    = calls_of (trace (snd first))
      ++ calls (call_updateOrderStatus 42 SHIPPED) :: rest.
Proof.
  exact (confirm_twice orders_update_down (mkWorld dialog_open [order42] [])
           order42 eq_refl).
Defined.



(* ================================================================== *)
(** ** Home: loading the featured products, and the cards *)
(* ================================================================== *)

Section HomeScreen.
Context {Server : Type}.
Variable getProducts : Z -> Server -> Outcome Home.ProductsResponse * Server.

Import Home.

(** X5. [fetchFeaturedProducts] asks once for a page of size 6, never rejects
    and always ends with loading off. On an answer the products are its
    content (none when the content is missing) and the error is cleared; on
    a failure the products are emptied and the error message is set. *)
Theorem fetchFeaturedProducts_settles (w : World View Server) :
  let answer := getProducts 6 (remote w) in
  let w1 := snd (fetchFeaturedProducts getProducts w) in
  fst (fetchFeaturedProducts getProducts w) = Resolved tt
  /\ loading (view w1) = false
  /\ remote w1 = snd answer
  /\ match fst answer with
     | Resolved response =>
         featuredProducts (view w1)
         = match content response with Some l => l | None => [] end
         /\ error (view w1) = None
         /\ trace w1 = trace w
     | Rejected e =>
         featuredProducts (view w1) = []
         /\ error (view w1) = Some "Failed to load featured products"%string
         /\ trace w1
            = trace w ++ [console_error "Error fetching featured products:" e]
     end.
Proof.
  intros answer w1. subst answer w1.
  unfold fetchFeaturedProducts, try_finally, try_catch, bind, request,
    setLoading, setFeaturedProducts, setError, setState, emit.
  cbn [view remote trace].
  destruct (getProducts 6 (remote w)) as [[response | e] s1];
    cbn [fst snd view remote trace featuredProducts loading error];
    repeat split.
Qed.

(** X6. What the page shows once the fetch has settled: no progress
    indicator; after an answer, no banner and one card per product of the
    answer, in order; after a failure, the banner with the fixed message
    and no card. *)
Theorem home_after_fetch (session : Session.t) (w : World View Server) :
  let shown := render session (view (snd (fetchFeaturedProducts getProducts w))) in
  progress shown = false
  /\ match fst (getProducts 6 (remote w)) with
     | Resolved response =>
         banner shown = None
         /\ cards shown
            = map (card session)
                  (match content response with Some l => l | None => [] end)
         /\ List.length (cards shown)
            = List.length
                (match content response with Some l => l | None => [] end)
     | Rejected _ =>
         banner shown = Some "Failed to load featured products"%string
         /\ cards shown = []
     end.
Proof.
  intros shown. subst shown.
  unfold fetchFeaturedProducts, try_finally, try_catch, bind, request,
    setLoading, setFeaturedProducts, setError, setState, emit.
  cbn [view remote trace].
  destruct (getProducts 6 (remote w)) as [[response | e] s1];
    cbn [fst snd view remote trace featuredProducts loading error];
    unfold render;
    cbn [featuredProducts loading error progress banner cards JS.truthy
         JS.is_empty negb];
    repeat split.
  apply length_map.
Qed.
End HomeScreen.

(** The progress indicator and the cards exclude each other. *)
Example home_while_loading :
  Home.render customer (Home.mkView [keeb 3; keeb 0] true None)
  = Home.mkRendered None true [].
Proof. reflexivity. Qed.

Example home_after_fetch_run :
  let w := mkWorld (Home.mkView [] true None) 0%nat [] in
  Home.cards (Home.render customer
                (view (snd (Home.fetchFeaturedProducts
                              (catalogue [keeb 3; keeb 0]) w))))
  = [Home.card customer (keeb 3); Home.card customer (keeb 0)]
  /\ remote (snd (Home.fetchFeaturedProducts (catalogue [keeb 3; keeb 0]) w))
     = 1%nat
  /\ Home.banner (Home.render customer
                    (view (snd (Home.fetchFeaturedProducts catalogue_down w))))
     = Some "Failed to load featured products"%string.
Proof. repeat split. Qed.

(** X7. With a session, add-to-cart on a home card asks the cart holder once,
    for one piece of the product. The handler never rejects and never
    changes what the page shows: when the cart holder fails, the failure
    only goes to the console. *)
Theorem home_add_to_cart_is_silent
    {Cart : Type} (addToCart : AddToCartRequest.t -> Cart -> Outcome unit * Cart)
    (session : Session.t) (productId : Z) (w : World Home.View Cart) :
  Session.isAuthenticated session = true ->
  let item := AddToCartRequest.mk productId 1 in
  let run := Home.handleAddToCart addToCart session productId w in
  fst run = Resolved tt
  /\ view (snd run) = view w
  /\ remote (snd run) = snd (addToCart item (remote w))
  /\ match fst (addToCart item (remote w)) with
     | Resolved _ => trace (snd run) = trace w ++ [calls (call_addToCart item)]
     | Rejected e =>
         trace (snd run)
         = trace w ++ [calls (call_addToCart item);
                       console_error "Error adding to cart:" e]
     end.
Proof.
  intros Hauth item run. subst item run.
  unfold Home.handleAddToCart. rewrite Hauth. cbn [negb].
  unfold try_catch, await, emit.
  destruct (addToCart (AddToCartRequest.mk productId 1) (remote w))
    as [[[] | e] c1]; cbn [fst snd view remote trace]; repeat split.
  now rewrite <- app_assoc.
Qed.

Lemma home_add_to_cart_is_silent_witness :
  let run := Home.handleAddToCart failing_cart customer 11
               (mkWorld (Home.mkView [keeb 3] false None) 0%nat []) in
  fst run = Resolved tt
  /\ view (snd run) = Home.mkView [keeb 3] false None.
Proof.
  pose proof (home_add_to_cart_is_silent failing_cart customer 11
                (mkWorld (Home.mkView [keeb 3] false None) 0%nat [])
                eq_refl) as H.
  destruct H as (Hres & Hview & _).
  split; [exact Hres | exact Hview].
Defined.

(** X8. A home card holds an enabled add-to-cart button exactly for a viewer
    who is not an admin and a stock other than 0. For a stock below 0 the
    card then shows the out-of-stock chip next to the enabled button. *)
Theorem home_add_to_cart_button (session : Session.t) (p : Product.t) :
  any_node enabledAddToCart (Home.card session p)
  = negb (Home.isAdmin session) && negb (Product.stockQuantity p =? 0)
  /\ (Home.isAdmin session = false -> Product.stockQuantity p < 0 ->
      any_node enabledAddToCart (Home.card session p) = true
      /\ any_node outOfStockWarning (Home.card session p) = true).
Proof.
  assert (Hbutton : any_node enabledAddToCart (Home.card session p)
                    = negb (Home.isAdmin session)
                      && negb (Product.stockQuantity p =? 0)).
  { unfold Home.card, Home.stockStatus, Home.cardAction.
    destruct (Home.isAdmin session); [reflexivity|].
    destruct (Product.stockQuantity p =? 0); reflexivity. }
  split; [exact Hbutton|].
  intros Hadmin Hneg. rewrite Hbutton, Hadmin, home_out_of_stock_warning.
  split; [| z_bool].
  replace (Product.stockQuantity p =? 0) with false by (symmetry; z_bool).
  reflexivity.
Qed.

Lemma home_add_to_cart_button_witness :
  any_node enabledAddToCart (Home.card customer (keeb (-1))) = true
  /\ any_node outOfStockWarning (Home.card customer (keeb (-1))) = true.
Proof.
  apply (home_add_to_cart_button customer (keeb (-1))).
  - reflexivity.
  - cbn. lia.
Defined.

(* ================================================================== *)
(** ** Home: the text of a card *)
(* ================================================================== *)

Lemma substring0_short (n : nat) (s : string) :
  (String.length s <= n)%nat -> JS.substring0 n s = s.
Proof.
  unfold JS.substring0. revert n.
  induction s as [| c s IH]; intros [| n] Hlen; cbn in *;
    try reflexivity; try lia.
  now rewrite IH by lia.
Qed.

Lemma substring0_length (n : nat) (s : string) :
  String.length (JS.substring0 n s) = Nat.min n (String.length s).
Proof.
  unfold JS.substring0. revert n.
  induction s as [| c s IH]; intros [| n]; cbn; try reflexivity.
  now rewrite IH.
Qed.

Lemma substring0_prefix (n : nat) (s : string) :
  exists rest, s = (JS.substring0 n s ++ rest)%string.
Proof.
  unfold JS.substring0. revert n.
  induction s as [| c s IH]; intros [| n]; cbn.
  - now exists ""%string.
  - now exists ""%string.
  - now exists (String c s).
  - destruct (IH n) as [rest Hrest]. exists rest. now rewrite <- Hrest.
Qed.

Lemma append_length (a b : string) :
  String.length (a ++ b)%string = (String.length a + String.length b)%nat.
Proof. induction a; cbn; congruence. Qed.

(** X9. The description on a card is the first hundred characters of the
    product's description followed by three dots; the dots are added to a
    short description too, which is otherwise shown whole. *)
Theorem description_on_card (p : Product.t) :
  is_ascii_text (Product.description p) = true ->
  let d := Product.description p in
  (String.length (Home.descriptionShown p)
   = Nat.min 100 (String.length d) + 3)%nat
  /\ (exists rest, d = (JS.substring0 100 d ++ rest)%string
                   /\ Home.descriptionShown p
                      = (JS.substring0 100 d ++ "...")%string)
  /\ ((String.length d <= 100)%nat ->
      Home.descriptionShown p = (d ++ "...")%string).
Proof.
  intros _ d. subst d. unfold Home.descriptionShown.
  split; [| split].
  - now rewrite append_length, substring0_length.
  - destruct (substring0_prefix 100 (Product.description p)) as [rest Hrest].
    exists rest. now split.
  - intros Hshort. now rewrite substring0_short.
Qed.

Lemma description_on_card_witness :
  Home.descriptionShown (keeb 3) = "A compact wireless board..."%string.
Proof.
  apply (description_on_card (keeb 3)).
  - reflexivity.
  - cbn. lia.
Defined.

Lemma replace_first (pattern replacement : ascii) (a b : string) :
  lacks pattern a = true ->
  JS.replace pattern replacement (a ++ String pattern b)
  = (a ++ String replacement b)%string.
Proof.
  intros Ha. induction a as [| c a IH]; cbn [append JS.replace lacks] in *.
  - now rewrite N.eqb_refl.
  - apply andb_true_iff in Ha as [Hc Ha].
    apply negb_true_iff in Hc. rewrite Hc. now rewrite IH.
Qed.

Lemma replace_absent (pattern replacement : ascii) (s : string) :
  lacks pattern s = true -> JS.replace pattern replacement s = s.
Proof.
  intros Hs. induction s as [| c s IH]; cbn [JS.replace lacks] in *.
  - reflexivity.
  - apply andb_true_iff in Hs as [Hc Hs].
    apply negb_true_iff in Hc. rewrite Hc. now rewrite IH.
Qed.

(** X10. The layout chip replaces the first underscore of the layout by a
    space and keeps every later one; a layout without underscore is shown
    as it is. *)
Theorem layout_on_card (p : Product.t) (a b : string) :
  (Product.layout p = (a ++ String "_" b)%string -> lacks "_" a = true ->
   Home.layoutLabel p = (a ++ String " " b)%string)
  /\ (lacks "_" (Product.layout p) = true ->
      Home.layoutLabel p = Product.layout p).
Proof.
  unfold Home.layoutLabel. split.
  - intros -> Ha. now apply replace_first.
  - apply replace_absent.
Qed.

Lemma layout_on_card_witness :
  Home.layoutLabel (keeb 3) = "SEVENTY FIVE_PERCENT"%string.
Proof.
  apply (layout_on_card (keeb 3) "SEVENTY" "FIVE_PERCENT"); reflexivity.
Defined.

(* ================================================================== *)
(** ** ProductDetail: loading the product *)
(* ================================================================== *)

Section DetailFetch.
Context {Server : Type}.
Variable getProductById : JS.Number -> Server -> Outcome Product.t * Server.

Import ProductDetail.

(** X11. Without an id in the path (none, or an empty one) the fetch does
    nothing at all: no request, no state change. Loading is never switched
    off, so a screen that was showing the progress indicator keeps showing
    it. *)
Theorem fetchProduct_without_id (id : option string) (w : World View Server) :
  id = None \/ id = Some ""%string ->
  fetchProduct getProductById id w = (Resolved tt, w)
  /\ (loading (view w) = true ->
      render (view (snd (fetchProduct getProductById id w))) = progress).
Proof.
  intros Hid.
  assert (Hrun : fetchProduct getProductById id w = (Resolved tt, w)).
  { destruct Hid as [-> | ->]; reflexivity. }
  split; [exact Hrun|].
  intros Hload. rewrite Hrun. unfold render. cbn [snd]. now rewrite Hload.
Qed.

(** X12. With an id, the fetch asks once for the product whose number is
    [parseInt] of the id (NaN when the id is not numeric), never rejects,
    ends with loading off and leaves the quantity alone. On an answer the
    product page is shown; on a failure the error alert is shown, also over
    a product loaded before, which stays in the state. *)
Theorem fetchProduct_settles (id : string) (w : World View Server) :
  id <> ""%string ->
  let answer := getProductById (JS.parseInt id) (remote w) in
  let w1 := snd (fetchProduct getProductById (Some id) w) in
  fst (fetchProduct getProductById (Some id) w) = Resolved tt
  /\ loading (view w1) = false
  /\ quantity (view w1) = quantity (view w)
  /\ remote w1 = snd answer
  /\ match fst answer with
     | Resolved p =>
         product (view w1) = Some p
         /\ error (view w1) = None
         /\ trace w1 = trace w
         /\ render (view w1)
            = page [stockStatus p; stepper p (view w1); addToCartSection p]
     | Rejected e =>
         product (view w1) = product (view w)
         /\ error (view w1) = Some "Failed to load product"%string
         /\ trace w1 = trace w ++ [console_error "Error fetching product:" e]
         /\ render (view w1) = failure "Failed to load product"
     end.
Proof.
  intros Hid answer w1. subst answer w1.
  unfold fetchProduct.
  replace (JS.truthy (Some id)) with true
    by (destruct id; [congruence | reflexivity]).
  cbn [negb].
  unfold try_finally, try_catch, bind, request, setLoading, setProduct,
    setError, setState, emit.
  cbn [view remote trace].
  destruct (getProductById (JS.parseInt id) (remote w)) as [[p | e] s1];
    cbn [fst snd view remote trace product loading error quantity];
    repeat split.
  unfold render. cbn [product loading error quantity JS.truthy].
  now destruct (product (view w)).
Qed.
End DetailFetch.

Lemma fetchProduct_without_id_witness :
  ProductDetail.render
    (view (snd (ProductDetail.fetchProduct product_server None
                  (mkWorld ProductDetail.initial 0%nat []))))
  = ProductDetail.progress.
Proof.
  apply (fetchProduct_without_id product_server None
           (mkWorld ProductDetail.initial 0%nat [])).
  - now left.
  - reflexivity.
Defined.

Lemma fetchProduct_settles_witness :
  let w := mkWorld ProductDetail.initial 0%nat [] in
  ProductDetail.loading
    (view (snd (ProductDetail.fetchProduct product_server (Some "abc"%string) w)))
  = false
  /\ remote (snd (ProductDetail.fetchProduct product_server (Some "abc"%string) w))
     = snd (product_server JS.NaN 0%nat).
Proof.
  pose proof (fetchProduct_settles product_server "abc"%string
                (mkWorld ProductDetail.initial 0%nat [])) as H.
  assert (Hne : "abc"%string <> ""%string) by discriminate.
  destruct (H Hne) as (_ & Hload & _ & Hremote & _).
  split; [exact Hload | exact Hremote].
Defined.

Example fetchProduct_runs :
  let w := mkWorld ProductDetail.initial 0%nat [] in
  ProductDetail.render
    (view (snd (ProductDetail.fetchProduct product_server (Some "11"%string) w)))
  = ProductDetail.page
      [ProductDetail.stockStatus (keeb 3);
       ProductDetail.stepper (keeb 3)
         (ProductDetail.mkView (Some (keeb 3)) false None 1);
       ProductDetail.addToCartSection (keeb 3)]
  /\ ProductDetail.render
       (view (snd (ProductDetail.fetchProduct product_server
                     (Some "11th"%string) w)))
     = ProductDetail.render
         (view (snd (ProductDetail.fetchProduct product_server
                       (Some "11"%string) w)))
  /\ ProductDetail.render
       (view (snd (ProductDetail.fetchProduct product_server
                     (Some "abc"%string) w)))
     = ProductDetail.failure "Failed to load product".
Proof. repeat split. Qed.

(* ================================================================== *)
(** ** ProductDetail: the stepper, click by click, and add to cart *)
(* ================================================================== *)

Section DetailPage.
Context {Cart : Type}.
Variable p : Product.t.

Import ProductDetail.

Lemma dispatch_step (load : bool) (err : option string) (q : Z)
      (cart : Cart) (tr : list Event) (a : Action) :
  dispatch a (mkWorld (mkView (Some p) load err q) cart tr)
  = (Resolved tt,
     mkWorld (mkView (Some p) load err
                     (stepper_next (Product.stockQuantity p) q a))
             cart tr).
Proof.
  unfold dispatch, click, stepper_next, minus_disabled, minus_onClick,
    plus_disabled, plus_onClick, setQuantity, setState, ret.
  cbn [view remote trace product loading error quantity].
  destruct a.
  - destruct (Z.leb_spec q 1); [reflexivity|].
    now replace (Z.max 1 (q - 1)) with (q - 1) by lia.
  - now destruct (Product.stockQuantity p <=? q).
Qed.

Lemma dispatch_all_steps (actions : list Action) (load : bool)
      (err : option string) (q : Z) (cart : Cart) (tr : list Event) :
  dispatch_all actions (mkWorld (mkView (Some p) load err q) cart tr)
  = (Resolved tt,
     mkWorld (mkView (Some p) load err
                     (fold_left (stepper_next (Product.stockQuantity p))
                                actions q))
             cart tr).
Proof.
  revert q. induction actions as [| a rest IH]; intros q.
  - reflexivity.
  - cbn [dispatch_all fold_left]. unfold bind.
    now rewrite dispatch_step, IH.
Qed.

Lemma plus_clicks (n : nat) (q : Z) :
  1 <= q <= Z.max 1 (Product.stockQuantity p) ->
  fold_left (stepper_next (Product.stockQuantity p)) (repeat Plus n) q
  = Z.min (q + Z.of_nat n) (Z.max 1 (Product.stockQuantity p)).
Proof.
  revert q. induction n as [| n IH]; intros q Hq.
  - cbn. lia.
  - cbn [repeat fold_left stepper_next].
    destruct (Z.leb_spec (Product.stockQuantity p) q).
    + rewrite IH by lia. lia.
    + rewrite IH by lia. lia.
Qed.

(** X13. After [n] clicks on plus the quantity is [1 + n], capped at the stock
    (at 1 for a stock below 1). So every quantity from 1 to the stock can
    be chosen, by that many clicks less one, and further clicks change
    nothing. *)
Theorem plus_clicks_reach (cart : Cart) (n : nat) :
  quantity_after p cart (repeat Plus n)
  = Z.min (1 + Z.of_nat n) (Z.max 1 (Product.stockQuantity p))
  /\ forall t, 1 <= t <= Product.stockQuantity p ->
       quantity_after p cart (repeat Plus (Z.to_nat (t - 1))) = t.
Proof.
  unfold quantity_after, loaded.
  split; [| intros t Ht]; rewrite dispatch_all_steps;
    cbn [snd view quantity]; rewrite plus_clicks by lia; lia.
Qed.

(** X14. Plus then minus, and minus then plus, give back the quantity (and the
    whole state) whenever the first click is not on a disabled button. *)
Theorem stepper_round_trip (load : bool) (err : option string) (q : Z)
        (cart : Cart) (tr : list Event) :
  let w := mkWorld (mkView (Some p) load err q) cart tr in
  (1 <= q < Product.stockQuantity p ->
   dispatch_all [Plus; Minus] w = (Resolved tt, w))
  /\ (1 < q <= Product.stockQuantity p ->
      dispatch_all [Minus; Plus] w = (Resolved tt, w)).
Proof.
  intros w. subst w.
  split; intros Hq; rewrite dispatch_all_steps;
    cbn [fold_left stepper_next].
  - replace (Product.stockQuantity p <=? q) with false by (symmetry; z_bool).
    replace (q + 1 <=? 1) with false by (symmetry; z_bool).
    now replace (q + 1 - 1) with q by lia.
  - replace (q <=? 1) with false by (symmetry; z_bool).
    replace (Product.stockQuantity p <=? q - 1) with false
      by (symmetry; z_bool).
    now replace (q - 1 + 1) with q by lia.
Qed.

Variable addToCart : AddToCartRequest.t -> Cart -> Outcome unit * Cart.
Variable session : Session.t.

Lemma stepper_fold_in_range (actions : list Action) (q : Z) :
  1 <= q <= Z.max 1 (Product.stockQuantity p) ->
  1 <= fold_left (stepper_next (Product.stockQuantity p)) actions q
    <= Z.max 1 (Product.stockQuantity p).
Proof.
  revert q. induction actions as [| a rest IH]; intros q Hq;
    [exact Hq|].
  cbn [fold_left]. apply IH. unfold stepper_next.
  destruct a.
  - destruct (Z.leb_spec q 1); lia.
  - destruct (Z.leb_spec (Product.stockQuantity p) q); lia.
Qed.

(** X15. The add-to-cart button after any clicks on the stepper. The click
    never rejects and never changes what the page shows. For a stock of 0
    the button is disabled and nothing happens; otherwise, without a
    session the only effect is the navigation to the login route, and with
    a session the cart holder is asked once, for the product shown and the
    quantity chosen, which lies between 1 and the stock when the stock is
    at least 1. *)
Theorem add_to_cart_after_stepper (cart : Cart) (actions : list Action) :
  let w := snd (dispatch_all actions (loaded p cart)) in
  let q := quantity_after p cart actions in
  let item := AddToCartRequest.mk (Product.id p) q in
  let run := addToCart_click addToCart session w in
  fst run = Resolved tt
  /\ view (snd run) = view w
  /\ (Product.stockQuantity p = 0 -> snd run = w)
  /\ (Product.stockQuantity p <> 0 ->
      Session.isAuthenticated session = false ->
      trace (snd run) = [navigate "/login"] /\ remote (snd run) = cart)
  /\ (Product.stockQuantity p <> 0 ->
      Session.isAuthenticated session = true ->
      calls_of (trace (snd run)) = [calls (call_addToCart item)]
      /\ remote (snd run) = snd (addToCart item cart)
      /\ (1 <= Product.stockQuantity p -> 1 <= q <= Product.stockQuantity p)).
Proof.
  intros w q item run. subst w q item run.
  unfold quantity_after, loaded. rewrite dispatch_all_steps.
  cbn [snd view quantity].
  pose proof (stepper_fold_in_range actions 1 ltac:(lia)) as Hrange.
  set (q := fold_left _ actions 1) in *.
  unfold addToCart_click, click, render.
  cbn [view product loading error JS.truthy].
  destruct (Z.eqb_spec (Product.stockQuantity p) 0) as [Hzero | Hpos].
  { repeat split; intros; try reflexivity; contradiction. }
  unfold handleAddToCart. cbn [product quantity].
  destruct (Session.isAuthenticated session); cbn [negb].
  - unfold try_catch, await, emit. cbn [remote trace view].
    destruct (addToCart (AddToCartRequest.mk (Product.id p) q) cart)
      as [[[] | e] c1]; cbn [fst snd view remote trace];
      repeat split; intros; try contradiction; try discriminate;
      try reflexivity; lia.
  - unfold emit. cbn [fst snd view remote trace].
    repeat split; intros; try contradiction; try discriminate;
      reflexivity.
Qed.

(** X16. For a product out of stock nothing can be bought. On its home
    card and on its page the add-to-cart button is there, under its
    out-of-stock label, and it is disabled (an admin's home card has no such
    button at all); no button of purchase is enabled. On the page the plus
    button is disabled and the quantity is 1, whatever was clicked. *)
Theorem out_of_stock_blocks_purchase (cart : Cart) (actions : list Action) :
  Product.stockQuantity p = 0 ->
  any_node purchaseButtonEnabled (Home.card session p) = false
  /\ any_node purchaseButtonDisabled (Home.card session p)
     = negb (Home.isAdmin session)
  /\ any_node purchaseButtonEnabled (addToCartSection p) = false
  /\ any_node purchaseButtonDisabled (addToCartSection p) = true
  /\ quantity_after p cart actions = 1
  /\ plus_disabled p (view (snd (dispatch_all actions (loaded p cart)))) = true
  /\ stepper p (view (snd (dispatch_all actions (loaded p cart))))
     = Box [Button "-" true; Typography "" "1"; Button "+" true].
Proof.
  intros Hzero.
  pose proof (stepper_fold_in_range actions 1 ltac:(lia)) as Hrange.
  unfold quantity_after, loaded. rewrite dispatch_all_steps.
  cbn [snd view quantity]. unfold stepper, plus_disabled, minus_disabled.
  cbn [quantity].
  set (q := fold_left _ actions 1) in *.
  rewrite Hzero in *.
  assert (Hq : q = 1) by lia. rewrite Hq.
  repeat split.
  - unfold Home.card, Home.stockStatus, Home.cardAction. rewrite Hzero.
    now destruct (Home.isAdmin session).
  - unfold Home.card, Home.stockStatus, Home.cardAction. rewrite Hzero.
    now destruct (Home.isAdmin session).
  - unfold addToCartSection. now rewrite Hzero.
  - unfold addToCartSection. now rewrite Hzero.
Qed.
End DetailPage.

(* ================================================================== *)
(** ** AdminProductForm: what is sent, and what stays on the screen *)
(* ================================================================== *)

Lemma parseInt_integer (s : string) :
  JS.parseInt s = JS.NaN \/ exists neg m, JS.parseInt s = JS.Dec neg m 0.
Proof.
  unfold JS.parseInt.
  destruct (JS.take_sign (JS.trimStart s)) as [neg s1].
  destruct (JS.strip_hex_prefix s1) as [radix s2].
  destruct (JS.span (JS.is_radix_digit radix) s2) as [z rest].
  destruct (JS.is_empty z); [now left | right; eauto].
Qed.

Lemma passed_price_is_positive (x : JS.Number) :
  JS.isNaN x || JS.leZero x = false -> JS.gtZero x = true.
Proof.
  destruct x as [| neg | neg m e]; cbn; [discriminate | now destruct neg |].
  destruct neg, (JS.rounds_to_zero m e); cbn; congruence.
Qed.

Lemma passed_stock_is_not_negative (x : JS.Number) :
  JS.isNaN x || JS.ltZero x = false -> JS.geZero x = true.
Proof.
  destruct x as [| neg | neg m e]; cbn; [discriminate | now destruct neg |].
  destruct neg, (JS.rounds_to_zero m e); cbn; congruence.
Qed.

Lemma guarded_or_passes (f : FormData.t) :
  AdminProductForm.missingRequired f || AdminProductForm.invalidPrice f
    || AdminProductForm.invalidStockQuantity f = true
  \/ passes_validation f.
Proof.
  unfold passes_validation.
  destruct (AdminProductForm.missingRequired f),
    (AdminProductForm.invalidPrice f),
    (AdminProductForm.invalidStockQuantity f); auto.
Qed.

Section ProductFormScreen.
Context {Server : Type}.
Variable api : AdminProductForm.Api Server.

Import AdminProductForm.

(** X17. A submission either makes no call, or makes exactly one create
    call, and the product it carries is then the form's, with a name, a
    description and a brand that are not empty, a price above 0 and a stock
    quantity that is not negative and has no fraction digits: it is exactly
    the integer of its digits when that is below [2^53], and it is finite
    only when the digits stay below [2^1024 - 2^970] (an infinity is sent
    otherwise). Nothing else is ever sent. *)
Theorem only_valid_products_are_sent (shown : View) (w : World View Server) :
  let w1 := snd (handleSubmit api shown w) in
  calls_of (trace w1) = calls_of (trace w)
  \/ exists data,
       calls_of (trace w1) = calls_of (trace w) ++ [calls (call_createProduct data)]
       /\ data = productData (formData shown)
       /\ ProductData.name data <> ""%string
       /\ ProductData.description data <> ""%string
       /\ ProductData.brand data <> ""%string
       /\ JS.gtZero (ProductData.price data) = true
       /\ JS.geZero (ProductData.stockQuantity data) = true
       /\ exists neg m,
            ProductData.stockQuantity data = JS.Dec neg m 0
            /\ (Z.of_N m < 2 ^ 53 ->
                JS.safeInteger (ProductData.stockQuantity data)
                = Some (Z.of_N m))
            /\ JS.isFinite (ProductData.stockQuantity data)
               = (Z.of_N m <? 2 ^ 1024 - 2 ^ 970).
Proof.
  intros w1. subst w1.
  destruct (guarded_or_passes (formData shown)) as [Hguard | Hpass].
  - left. destruct (handleSubmit_guards api shown w Hguard) as [message Hrun].
    rewrite Hrun. cbn [snd trace refused_with].
    now apply calls_of_snoc_other.
  - right. exists (productData (formData shown)).
    split; [now apply handleSubmit_passes_calls|].
    split; [reflexivity|].
    destruct Hpass as (Hreq & Hprice & Hstock).
    unfold missingRequired in Hreq.
    rewrite !orb_false_iff in Hreq.
    destruct Hreq as ((((Hn & Hd) & _) & Hb) & _).
    cbn [productData ProductData.name ProductData.description
         ProductData.brand ProductData.price ProductData.stockQuantity].
    assert (Hge : JS.geZero (JS.parseInt (FormData.stockQuantity (formData shown)))
                  = true)
      by now apply passed_stock_is_not_negative.
    repeat split.
    + intros Heq. apply not_empty in Heq. congruence.
    + intros Heq. apply not_empty in Heq. congruence.
    + intros Heq. apply not_empty in Heq. congruence.
    + now apply passed_price_is_positive.
    + exact Hge.
    + destruct (parseInt_integer (FormData.stockQuantity (formData shown)))
        as [Hnan | (neg & m & Hint)].
      { unfold invalidStockQuantity in Hstock. rewrite Hnan in Hstock.
        discriminate. }
      exists neg, m. rewrite Hint in *. split; [reflexivity|]. split.
      * intros Hsafe. unfold JS.safeInteger.
        cbn [Z.leb Z.compare andb]. rewrite Z.pow_0_r, Z.mul_1_r.
        replace (Z.of_N m <? 2 ^ 53) with true by (symmetry; z_bool).
        f_equal. destruct neg; [| reflexivity].
        cbn [JS.geZero negb orb] in Hge. unfold JS.rounds_to_zero in Hge.
        cbn [Z.leb Z.compare] in Hge. apply N.eqb_eq in Hge. now subst m.
      * unfold JS.isFinite, JS.overflows.
        cbn [Z.leb Z.compare]. rewrite Z.pow_0_r, Z.mul_1_r.
        now rewrite Z.ltb_antisym.
Qed.

(** X18. When the create call succeeds, the success message is set, the error
    is cleared, loading is off, the navigation to the product list is
    scheduled 1500 ms later, and the form keeps its data with the submit
    button enabled. A second click before the navigation therefore sends
    the same product again. *)
Theorem submit_twice_sends_twice (w : World View Server) :
  passes_validation (formData (view w)) ->
  let data := productData (formData (view w)) in
  let w1 := snd (click (handleSubmit api) w) in
  let w2 := snd (click (handleSubmit api) w1) in
  formData (view w1) = formData (view w)
  /\ submit_disabled (view w1) = false
  /\ calls_of (trace w2)
     = calls_of (trace w)
       ++ [calls (call_createProduct data); calls (call_createProduct data)]
  /\ (forall s1, createProduct api data (remote w) = (Resolved tt, s1) ->
      success (view w1) = Some "Product created successfully"%string
      /\ error (view w1) = None
      /\ remote w1 = s1
      /\ trace w1
         = trace w ++ [preventDefault; calls (call_createProduct data);
                       setTimeout_navigate "/admin/products" 1500]).
Proof.
  intros Hpass data w1 w2.
  assert (Hform : formData (view w1) = formData (view w)
                  /\ submit_disabled (view w1) = false).
  { subst w1. unfold click. rewrite (handleSubmit_passes api (view w) w Hpass).
    destruct (createProduct api (productData (formData (view w))) (remote w))
      as [[[] | e] s1]; now split. }
  destruct Hform as (Hform & Hbutton).
  split; [exact Hform|]. split; [exact Hbutton|]. split.
  - subst w2. unfold click at 1.
    rewrite handleSubmit_passes_calls by (rewrite Hform; exact Hpass).
    subst w1. unfold click at 1.
    rewrite handleSubmit_passes_calls by exact Hpass.
    rewrite Hform, <- app_assoc. reflexivity.
  - intros s1 Hok. subst w1. unfold click.
    rewrite (handleSubmit_passes api (view w) w Hpass). fold data.
    rewrite Hok. cbn [snd view remote trace success error]. now repeat split.
Qed.

(** X19. A success message, once shown, is never taken away by a later
    submission: afterwards the success state holds the same message or the
    message of a new success, so the success banner is still shown. When
    that later submission is refused, the old message stays as it is, and
    the error banner shows one of the three validation messages next to
    it. *)
Theorem success_message_stays
    (shown : View) (w : World View Server) (m : string) :
  success (view w) = Some m ->
  m <> ""%string ->
  let w1 := snd (handleSubmit api shown w) in
  (success (view w1) = Some m
   \/ success (view w1) = Some "Product created successfully"%string)
  /\ JS.truthy (success (view w1)) = true
  /\ (refused_as_stated (formData shown) ->
      success (view w1) = Some m
      /\ JS.truthy (error (view w1)) = true
      /\ In (error (view w1))
            [Some "Please fill in all required fields"%string;
             Some "Please enter a valid price"%string;
             Some "Please enter a valid stock quantity"%string]).
Proof.
  intros Hm Hne w1. subst w1.
  assert (Htruthy : JS.truthy (Some m) = true)
    by (destruct m; [congruence | reflexivity]).
  assert (Hrefusal :
            missingRequired (formData shown) || invalidPrice (formData shown)
              || invalidStockQuantity (formData shown) = true ->
            let w1 := snd (handleSubmit api shown w) in
            success (view w1) = Some m
            /\ JS.truthy (error (view w1)) = true
            /\ In (error (view w1))
                  [Some "Please fill in all required fields"%string;
                   Some "Please enter a valid price"%string;
                   Some "Please enter a valid stock quantity"%string]).
  { intros Hguard.
    destruct (handleSubmit_refusal api shown w) as (Hreq & Hprice & Hstock).
    destruct (missingRequired (formData shown)) eqn:Ereq.
    - rewrite (Hreq eq_refl). unfold refused_with.
      cbn [snd view success error]. split; [exact Hm|].
      split; [reflexivity | now left].
    - destruct (invalidPrice (formData shown)) eqn:Eprice.
      + rewrite (Hprice eq_refl eq_refl). unfold refused_with.
        cbn [snd view success error]. split; [exact Hm|].
        split; [reflexivity | right; now left].
      + cbn [orb] in Hguard. rewrite (Hstock eq_refl eq_refl Hguard).
        unfold refused_with.
        cbn [snd view success error]. split; [exact Hm|].
        split; [reflexivity | right; right; now left]. }
  split; [| split].
  - destruct (guarded_or_passes (formData shown)) as [Hguard | Hpass].
    + left. now apply Hrefusal.
    + rewrite (handleSubmit_passes api shown w Hpass).
      destruct (createProduct api (productData (formData shown)) (remote w))
        as [[[] | e] s1]; cbn [snd view success]; auto.
  - destruct (guarded_or_passes (formData shown)) as [Hguard | Hpass].
    + destruct (Hrefusal Hguard) as (Hs & _). cbv zeta in Hs.
      now rewrite Hs.
    + rewrite (handleSubmit_passes api shown w Hpass).
      destruct (createProduct api (productData (formData shown)) (remote w))
        as [[[] | e] s1]; cbn [snd view success];
        [reflexivity | now rewrite Hm].
  - intros Hrefused. apply Hrefusal. now apply refused_is_guarded.
Qed.
End ProductFormScreen.

Section ProductFormInputs.
Context {Server : Type}.

Import AdminProductForm.

(** X20. An edit of one input changes the form data only: the banners, the
    loading flag and the layouts stay, and nothing is sent. Edits of
    different inputs do not disturb each other (their order does not
    matter), and of two edits of the same input the later one wins. *)
Theorem input_changes_are_independent (i j : Input) (w : World View Server) :
  let w1 := snd (handleInputChange i w) in
  (error (view w1) = error (view w)
   /\ success (view w1) = success (view w)
   /\ loading (view w1) = loading (view w)
   /\ keyboardLayouts (view w1) = keyboardLayouts (view w)
   /\ remote w1 = remote w
   /\ trace w1 = trace w)
  /\ (input_index i <> input_index j ->
      (handleInputChange i ;; handleInputChange j) w
      = (handleInputChange j ;; handleInputChange i) w)
  /\ (input_index i = input_index j ->
      (handleInputChange i ;; handleInputChange j) w = handleInputChange j w).
Proof.
  intros w1. subst w1.
  unfold handleInputChange, setFormData, setState, bind.
  cbn [snd view remote trace error success loading keyboardLayouts formData].
  split; [now repeat split|].
  destruct (formData (view w)) as [n d pr b l s k c rgb wl q img].
  split; intros Hij; destruct i, j; cbn in Hij; try congruence; reflexivity.
Qed.

Variable api : Api Server.

(** X21. What is typed is what is sent. Starting from the empty form, typing
    a name, a description, a price, a brand and a stock quantity that get
    through validation and submitting sends one product with exactly those
    texts (the numbers parsed), the default layout and nothing else
    filled in. *)
Theorem typed_form_is_submitted
    (n d pr b q : string) (w : World View Server) :
  formData (view w) = FormData.initial ->
  let f := FormData.mk n d pr b "FULL_SIZE" "" "" "" false false q "" in
  passes_validation f ->
  let typed := snd ((handleInputChange (name n) ;;
                     handleInputChange (description d) ;;
                     handleInputChange (price pr) ;;
                     handleInputChange (brand b) ;;
                     handleInputChange (stockQuantity q)) w) in
  formData (view typed) = f
  /\ calls_of (trace (snd (click (handleSubmit api) typed)))
     = calls_of (trace w) ++ [calls (call_createProduct (productData f))].
Proof.
  intros Hinit f Hpass typed.
  assert (Htyped : formData (view typed) = f /\ trace typed = trace w).
  { subst typed. unfold handleInputChange, setFormData, setState, bind.
    cbn [snd view trace formData]. rewrite Hinit. now split. }
  destruct Htyped as (Hform & Htrace).
  split; [exact Hform|].
  unfold click. rewrite handleSubmit_passes_calls by (rewrite Hform; exact Hpass).
  now rewrite Hform, Htrace.
Qed.

Variable getKeyboardLayouts : Server -> Outcome (list string) * Server.

(** X22. Loading the layouts never rejects and never shows anything to the
    user: the error, the messages, the loading flag and the form data are
    untouched. On an answer the layouts are replaced; on a failure they stay
    and the failure goes to the console only. *)
Theorem fetchKeyboardLayouts_is_silent (w : World View Server) :
  let answer := getKeyboardLayouts (remote w) in
  let run := fetchKeyboardLayouts getKeyboardLayouts w in
  fst run = Resolved tt
  /\ error (view (snd run)) = error (view w)
  /\ success (view (snd run)) = success (view w)
  /\ loading (view (snd run)) = loading (view w)
  /\ formData (view (snd run)) = formData (view w)
  /\ remote (snd run) = snd answer
  /\ match fst answer with
     | Resolved layouts =>
         keyboardLayouts (view (snd run)) = layouts
         /\ trace (snd run) = trace w
     | Rejected e =>
         keyboardLayouts (view (snd run)) = keyboardLayouts (view w)
         /\ trace (snd run)
            = trace w ++ [console_error "Error fetching keyboard layouts:" e]
     end.
Proof.
  intros answer run. subst answer run.
  unfold fetchKeyboardLayouts, try_catch, bind, request, setKeyboardLayouts,
    setState, emit.
  destruct (getKeyboardLayouts (remote w)) as [[layouts | e] s1];
    cbn [fst snd view remote trace error success loading formData
         keyboardLayouts];
    now repeat split.
Qed.
End ProductFormInputs.

(* ================================================================== *)
(** ** Runs on the sample products and services *)
(* ================================================================== *)

Lemma plus_clicks_reach_witness :
  ProductDetail.quantity_after (keeb 3) tt
    (repeat ProductDetail.Plus (Z.to_nat (3 - 1))) = 3.
Proof.
  apply (plus_clicks_reach (keeb 3) tt 0). cbn. lia.
Defined.

Lemma stepper_round_trip_witness :
  let w := mkWorld (ProductDetail.mkView (Some (keeb 3)) false None 2) tt [] in
  ProductDetail.dispatch_all [ProductDetail.Plus; ProductDetail.Minus] w
  = (Resolved tt, w).
Proof.
  apply (stepper_round_trip (keeb 3) false None 2 tt []). cbn. lia.
Defined.

Lemma add_to_cart_after_stepper_witness :
  let actions := [ProductDetail.Plus; ProductDetail.Plus; ProductDetail.Plus;
                  ProductDetail.Plus; ProductDetail.Minus] in
  let w := snd (ProductDetail.dispatch_all actions
                  (ProductDetail.loaded (keeb 3) 0%nat)) in
  calls_of (trace (snd (ProductDetail.addToCart_click counting_cart customer w)))
  = [calls (call_addToCart
              (AddToCartRequest.mk 11
                 (ProductDetail.quantity_after (keeb 3) 0%nat actions)))].
Proof.
  pose proof (add_to_cart_after_stepper (keeb 3) counting_cart customer 0%nat
                [ProductDetail.Plus; ProductDetail.Plus; ProductDetail.Plus;
                 ProductDetail.Plus; ProductDetail.Minus]) as H.
  destruct H as (_ & _ & _ & _ & Hauth).
  assert (Hstock : Product.stockQuantity (keeb 3) <> 0) by (cbn; lia).
  destruct (Hauth Hstock eq_refl) as (Hcalls & _).
  exact Hcalls.
Defined.

Lemma out_of_stock_blocks_purchase_witness :
  ProductDetail.quantity_after (keeb 0) tt
    [ProductDetail.Plus; ProductDetail.Plus] = 1
  /\ any_node purchaseButtonEnabled (Home.card customer (keeb 0)) = false
  /\ any_node purchaseButtonDisabled (ProductDetail.addToCartSection (keeb 0))
     = true.
Proof.
  pose proof (out_of_stock_blocks_purchase (keeb 0) customer tt
                [ProductDetail.Plus; ProductDetail.Plus] eq_refl) as H.
  destruct H as (Hhome & _ & _ & Hdetail & Hq & _).
  split; [exact Hq |]. split; [exact Hhome | exact Hdetail].
Defined.

Lemma submit_twice_sends_twice_witness :
  let w := mkWorld (form_showing (filled "89.99" "10")) [] [] in
  let w1 := snd (click (AdminProductForm.handleSubmit products_up) w) in
  let w2 := snd (click (AdminProductForm.handleSubmit products_up) w1) in
  calls_of (trace w2)
  = [calls (call_createProduct
              (AdminProductForm.productData (filled "89.99" "10")));
     calls (call_createProduct
              (AdminProductForm.productData (filled "89.99" "10")))]
  /\ List.length (remote w2) = 2%nat.
Proof.
  assert (Hpass : passes_validation (filled "89.99" "10"))
    by (vm_compute; repeat split; reflexivity).
  pose proof (submit_twice_sends_twice products_up
                (mkWorld (form_showing (filled "89.99" "10")) [] []) Hpass)
    as H.
  destruct H as (_ & _ & Hcalls & _).
  split; [exact Hcalls | vm_compute; reflexivity].
Defined.

Lemma success_message_stays_witness :
  let w0 := mkWorld (form_showing (filled "89.99" "10")) [] [] in
  let w1 := snd (click (AdminProductForm.handleSubmit products_up) w0) in
  let edited := snd (AdminProductForm.handleInputChange
                       (AdminProductForm.price "-5") w1) in
  let w2 := snd (click (AdminProductForm.handleSubmit products_up) edited) in
  AdminProductForm.success (view w2)
  = Some "Product created successfully"%string
  /\ JS.truthy (AdminProductForm.error (view w2)) = true.
Proof.
  cbv zeta.
  set (w1 := snd (click (AdminProductForm.handleSubmit products_up)
                    (mkWorld (form_showing (filled "89.99" "10")) [] []))).
  set (edited := snd (AdminProductForm.handleInputChange
                        (AdminProductForm.price "-5") w1)).
  assert (Hm : AdminProductForm.success (view edited)
               = Some "Product created successfully"%string)
    by (vm_compute; reflexivity).
  assert (Hne : "Product created successfully"%string <> ""%string)
    by discriminate.
  assert (Hrefused : refused_as_stated
                       (AdminProductForm.formData (view edited))).
  { unfold refused_as_stated. do 5 right. left. vm_compute. reflexivity. }
  pose proof (success_message_stays products_up (view edited) edited
                "Product created successfully"%string Hm Hne) as H.
  destruct H as (_ & _ & H).
  destruct (H Hrefused) as (Hs & He & _).
  split; [exact Hs | exact He].
Defined.

Lemma input_changes_are_independent_witness :
  let w := mkWorld AdminProductForm.initial tt [] in
  (AdminProductForm.handleInputChange (AdminProductForm.price "89.99") ;;
   AdminProductForm.handleInputChange (AdminProductForm.name "K2")) w
  = (AdminProductForm.handleInputChange (AdminProductForm.name "K2") ;;
     AdminProductForm.handleInputChange (AdminProductForm.price "89.99")) w.
Proof.
  apply (input_changes_are_independent
           (AdminProductForm.price "89.99") (AdminProductForm.name "K2")
           (mkWorld AdminProductForm.initial tt [])).
  cbn. lia.
Defined.

Lemma typed_form_is_submitted_witness :
  let w := mkWorld AdminProductForm.initial ([] : list ProductData.t) [] in
  let typed :=
    snd ((AdminProductForm.handleInputChange (AdminProductForm.name "K2") ;;
          AdminProductForm.handleInputChange (AdminProductForm.description "Board") ;;
          AdminProductForm.handleInputChange (AdminProductForm.price " 89.99") ;;
          AdminProductForm.handleInputChange (AdminProductForm.brand "Keychron") ;;
          AdminProductForm.handleInputChange (AdminProductForm.stockQuantity "10"))
           w) in
  calls_of (trace (snd (click (AdminProductForm.handleSubmit products_up) typed)))
  = [calls (call_createProduct
              (ProductData.mk "K2" "Board" (JS.Dec false 8999 (-2)) "Keychron"
                 "FULL_SIZE" "" "" "" false false (JS.Dec false 10 0) ""))].
Proof.
  assert (Hpass : passes_validation
                    (FormData.mk "K2" "Board" " 89.99" "Keychron" "FULL_SIZE"
                       "" "" "" false false "10" ""))
    by (vm_compute; repeat split; reflexivity).
  exact (proj2 (typed_form_is_submitted products_up "K2" "Board" " 89.99"
                  "Keychron" "10"
                  (mkWorld AdminProductForm.initial [] []) eq_refl Hpass)).
Defined.

(** A stock quantity of four hundred digits gets through validation and
    is sent, though it is no finite number any more. *)
Example huge_stock_is_sent :
  passes_validation (filled "89.99" (nines 400))
  /\ JS.isFinite (ProductData.stockQuantity
                    (AdminProductForm.productData (filled "89.99" (nines 400))))
     = false
  /\ JS.safeInteger (ProductData.stockQuantity
                       (AdminProductForm.productData (filled "89.99" "10")))
     = Some 10.
Proof. vm_compute. repeat split; reflexivity. Qed.
